(** * The comment pipeline of [main.py]

    A shallow embedding of the five functions of [main.py]
    ([fetch_comments], [analyze_with_ai], [store_result],
    [send_notification], [run_pipeline]) and the properties the
    specification states about them.

    Conventions.
    - A Python [str] is a [string]; one character stands for one code point
      (U+0000 to U+00FF).
    - Every Python value the pipeline handles comes out of a JSON decoder or
      is a [str] or a [bool], so Python values are the type [json]; a Python
      [dict] is an association list in insertion order.
    - A Python exception is [Raise msg], [msg] being [str(e)]; every
      handler of the program is [except Exception] or a bare [except].
    - The outside world (the HTTP source, the language model, the clock, the
      file system) is an explicit environment and an explicit state. *)

From Stdlib Require Import String Ascii List ZArith Bool Arith Lia.
Import ListNotations.
Open Scope string_scope.

(** ** Python values *)

#[local] Set Warnings "-register-all".

Inductive json : Type :=
| JNull
| JBool (b : bool)
| JInt (n : Z)
| JFloat (repr : string)
| JStr (s : string)
| JArr (xs : list json)
| JObj (kvs : list (string * json)).

Definition dict : Type := list (string * json).

(** ** Exceptions *)

Inductive exc (A : Type) : Type :=
| Ok (a : A)
| Raise (msg : string).
Arguments Ok {A} a.
Arguments Raise {A} msg.

Definition bind {A B : Type} (m : exc A) (k : A -> exc B) : exc B :=
  match m with
  | Ok a => k a
  | Raise msg => Raise msg
  end.

(** [try: m  except Exception as e: h(str(e))] *)
Definition try_except {A : Type} (m : exc A) (h : string -> A) : A :=
  match m with
  | Ok a => a
  | Raise msg => h msg
  end.

Notation "x <- m ;; k" := (bind m (fun x => k))
  (at level 61, m at next level, right associativity).

(** ** The Python primitives the program uses *)

Module Py.

Definition dquote : string := String "034"%char EmptyString.
Definition nl : string := String "010"%char EmptyString.

(** [type(v).__name__] *)
Definition type_name (v : json) : string :=
  match v with
  | JNull => "NoneType"
  | JBool _ => "bool"
  | JInt _ => "int"
  | JFloat _ => "float"
  | JStr _ => "str"
  | JArr _ => "list"
  | JObj _ => "dict"
  end.

Definition attribute_error (v : json) (attr : string) : string :=
  "'" ++ type_name v ++ "' object has no attribute '" ++ attr ++ "'".

(** [d.get(key)] on a dict: the value of the key, if present. *)
Fixpoint lookup (key : string) (d : dict) : option json :=
  match d with
  | [] => None
  | (k, v) :: d' => if String.eqb k key then Some v else lookup key d'
  end.

(** [d[key] = v]: an existing key keeps its place, a new one goes last. *)
Fixpoint set (key : string) (v : json) (d : dict) : dict :=
  match d with
  | [] => [(key, v)]
  | (k, v0) :: d' =>
      if String.eqb k key then (k, v) :: d' else (k, v0) :: set key v d'
  end.

(** [v.get(key, default)] *)
Definition get (v : json) (key : string) (default : json) : exc json :=
  match v with
  | JObj d =>
      Ok (match lookup key d with Some x => x | None => default end)
  | _ => Raise (attribute_error v "get")
  end.

(** [v[key]] for a string key on a dict. *)
Definition getitem (d : dict) (key : string) : exc json :=
  match lookup key d with
  | Some x => Ok x
  | None => Raise ("'" ++ key ++ "'")
  end.

(** [str.isspace] on one character. *)
Definition isspace (c : ascii) : bool :=
  let n := nat_of_ascii c in
  (((9 <=? n) && (n <=? 13)) || ((28 <=? n) && (n <=? 32))
   || (n =? 133) || (n =? 160))%nat.

Fixpoint lstrip (s : string) : string :=
  match s with
  | EmptyString => EmptyString
  | String c s' => if isspace c then lstrip s' else s
  end.

Fixpoint rstrip (s : string) : string :=
  match s with
  | EmptyString => EmptyString
  | String c s' =>
      match rstrip s' with
      | EmptyString => if isspace c then EmptyString else String c EmptyString
      | r => String c r
      end
  end.

Definition str_strip (s : string) : string := rstrip (lstrip s).

(** [v.strip()] *)
Definition strip (v : json) : exc string :=
  match v with
  | JStr s => Ok (str_strip s)
  | _ => Raise (attribute_error v "strip")
  end.

Definition lower_char (c : ascii) : ascii :=
  let n := nat_of_ascii c in
  if (((65 <=? n) && (n <=? 90))
      || ((192 <=? n) && (n <=? 222) && negb (n =? 215)))%nat
  then ascii_of_nat (n + 32) else c.

Fixpoint str_lower (s : string) : string :=
  match s with
  | EmptyString => EmptyString
  | String c s' => String (lower_char c) (str_lower s')
  end.

(** [v.lower()] *)
Definition lower (v : json) : exc string :=
  match v with
  | JStr s => Ok (str_lower s)
  | _ => Raise (attribute_error v "lower")
  end.

(** [s[:n]] on a string. *)
Definition str_prefix (n : nat) (s : string) : string := substring 0 n s.

(** [v[:3]]; the message for a dict is the one of CPython up to 3.11. *)
Definition slice3 (v : json) : exc json :=
  match v with
  | JArr xs => Ok (JArr (firstn 3 xs))
  | JStr s => Ok (JStr (str_prefix 3 s))
  | JObj _ => Raise "unhashable type: 'slice'"
  | _ => Raise ("'" ++ type_name v ++ "' object is not subscriptable")
  end.

Fixpoint chars (s : string) : list json :=
  match s with
  | EmptyString => []
  | String c s' => JStr (String c EmptyString) :: chars s'
  end.

(** The elements a [for] loop visits. *)
Definition iter (v : json) : exc (list json) :=
  match v with
  | JArr xs => Ok xs
  | JStr s => Ok (chars s)
  | JObj d => Ok (map (fun kv => JStr (fst kv)) d)
  | _ => Raise ("'" ++ type_name v ++ "' object is not iterable")
  end.

(** [str(b)] for a bool, as an f-string prints it. *)
Definition str_bool (b : bool) : string := if b then "True" else "False".

End Py.

(** ** The outside world *)

(** What [json.dump(data, f, indent=2, ensure_ascii=False)] does to the file
    it writes, which [open(..., "w")] has just emptied: it writes the whole
    text, or it raises (a value nested too deep, a character the file cannot
    encode) and leaves the file with the text written so far, [cut]. *)
Inductive dump_result (D : Type) : Type :=
| Dumped (text : D)
| DumpRaise (msg : string) (cut : D).
Arguments Dumped {D} text.
Arguments DumpRaise {D} msg cut.

(** [json.loads] and [json.dump] of the Python library: [document] is the
    text they read and write, and a decoding that raises is [Raise]. *)
Class JsonCodec : Type := {
  document : Type;
  json_loads : document -> exc json;
  json_dump : json -> dump_result document
}.

(** Decoding a text that was written whole gives the value back. *)
Class JsonRoundTrip (codec : JsonCodec) : Prop :=
  loads_dump :
    forall (j : json) (text : document),
      json_dump j = Dumped text -> json_loads text = Ok j.

(** What [client.get(url)], [raise_for_status()] and [resp.json()] give. *)
Inductive http_result : Type :=
| HttpRaise (msg : string)
| HttpJson (data : json).

(** Whether a file can be opened. *)
Inductive io_result : Type :=
| IoOk
| IoError (msg : string).

Record file_io : Type := {
  open_read : io_result;
  open_write : io_result
}.

(** The places where the program reads the clock. *)
Inductive clock_site : Type :=
| AtComment (i : nat)
| AtNotify
| AtResponse.

Record PipelineRequest : Type := {
  email : string;
  source : string
}.

Record Response : Type := {
  items : list dict;
  notificationSent : bool;
  processedAt : string;
  errors : list string
}.

Definition STORAGE_FILE : string := "processed_comments.json".
Definition NOTIFICATION_LOG : string := "notification_log.txt".

Section Pipeline.

Context {codec : JsonCodec}.

(** What the chat completion gives for one call: an exception raised before
    [json.loads] is reached, or the text of [choices[0].message.content]. *)
Inductive completion : Type :=
| CompletionRaise (msg : string)
| CompletionContent (content : document).

(** One run's environment; the calls made for the [i]-th comment of the loop
    are indexed by [i]. *)
Record Env : Type := {
  http_get : http_result;
  chat_completion : nat -> string -> completion;
  storage_io : nat -> file_io;
  log_io : io_result;
  utcnow_isoformat : clock_site -> string
}.

(** The file [STORAGE_FILE], which may be absent, the lines appended to the
    file [NOTIFICATION_LOG], and what was printed. *)
Record World : Type := {
  storage : option document;
  notification_log : list string;
  stdout : list string
}.

(** *** [fetch_comments] *)

Definition fetch_comments (env : Env) : exc json :=
  match
    match http_get env with
    | HttpRaise msg => Raise msg
    | HttpJson data => Py.slice3 data
    end
  with
  | Ok comments => Ok comments
  | Raise msg => Raise ("Fetch failed: " ++ msg)
  end.

(** *** [analyze_with_ai] *)

Definition prompt (text : string) : string :=
  "Summarize this comment in 1-2 short sentences." ++ Py.nl
  ++ "Classify sentiment as positive, negative or neutral." ++ Py.nl
  ++ "Return ONLY JSON like this:" ++ Py.nl
  ++ "{" ++ Py.nl
  ++ "  " ++ Py.dquote ++ "summary" ++ Py.dquote ++ ": "
  ++ Py.dquote ++ "your summary" ++ Py.dquote ++ "," ++ Py.nl
  ++ "  " ++ Py.dquote ++ "sentiment" ++ Py.dquote ++ ": "
  ++ Py.dquote ++ "positive" ++ Py.dquote ++ " or "
  ++ Py.dquote ++ "negative" ++ Py.dquote ++ " or "
  ++ Py.dquote ++ "neutral" ++ Py.dquote ++ Py.nl
  ++ "}" ++ Py.nl
  ++ Py.nl
  ++ "Comment: " ++ text.

Definition create_completion (env : Env) (i : nat) (p : string)
  : exc document :=
  match chat_completion env i p with
  | CompletionRaise msg => Raise msg
  | CompletionContent content => Ok content
  end.

Definition analyze_body (env : Env) (i : nat) (text : string) : exc dict :=
  content <- create_completion env i (prompt text) ;;
  result <- json_loads content ;;
  summary <- Py.get result "summary" (JStr "No summary available") ;;
  raw <- Py.get result "sentiment" (JStr "neutral") ;;
  sentiment <- Py.lower raw ;;
  Ok [("summary", summary); ("sentiment", JStr sentiment)].

Definition degraded (msg : string) : dict :=
  [("summary", JStr ("AI failed: " ++ Py.str_prefix 80 msg));
   ("sentiment", JStr "neutral")].

Definition analyze_with_ai (env : Env) (i : nat) (text : string) : dict :=
  try_except (analyze_body env i text) degraded.

(** *** [store_result] *)

Definition open_file (r : io_result) : exc unit :=
  match r with
  | IoOk => Ok tt
  | IoError msg => Raise msg
  end.

(** Lines 63 to 69: the collection the new record is appended to. *)
Definition load_data (io : file_io) (w : World) : exc json :=
  match storage w with
  | None => Ok (JArr [])
  | Some content =>
      _ <- open_file (open_read io) ;;
      Ok (try_except (json_loads content) (fun _ => JArr []))
  end.

(** [data.append(record)] *)
Definition append (data : json) (record : json) : exc json :=
  match data with
  | JArr xs => Ok (JArr (xs ++ [record])%list)
  | _ => Raise (Py.attribute_error data "append")
  end.

(** The world after the storage file is rewritten. *)
Definition with_storage (w : World) (content : document) : World :=
  {| storage := Some content;
     notification_log := notification_log w;
     stdout := stdout w |}.

(** Lines 71 and 72: a file that cannot be opened is left as it is; a file
    that was opened holds what [json.dump] wrote, whole or cut. *)
Definition write_data (io : file_io) (data : json) (w : World)
  : exc unit * World :=
  match open_file (open_write io) with
  | Raise msg => (Raise msg, w)
  | Ok _ =>
      match json_dump data with
      | Dumped text => (Ok tt, with_storage w text)
      | DumpRaise msg cut => (Raise msg, with_storage w cut)
      end
  end.

(** Lines 62 to 73, the [try] block: how it ends, and the world it leaves. *)
Definition store_body (io : file_io) (item : dict) (src : string) (w : World)
  : exc unit * World :=
  let record := Py.set "source" (JStr src) item in
  match data <- load_data io w ;; append data (JObj record) with
  | Raise msg => (Raise msg, w)
  | Ok data => write_data io data w
  end.

Definition store_result (io : file_io) (item : dict) (src : string)
  (w : World) : bool * World :=
  let (r, w') := store_body io item src w in
  (try_except (_ <- r ;; Ok true) (fun _ => false), w').

(** *** [send_notification] *)

Definition notification (env : Env) (to : string) (success : bool) : string :=
  "[" ++ utcnow_isoformat env AtNotify ++ "Z] Pipeline done. Success: "
  ++ Py.str_bool success ++ ". To: " ++ to ++ Py.nl.

Definition send_notification (env : Env) (to : string) (success : bool)
  (w : World) : bool * World :=
  let msg := notification env to success in
  let line := msg ++ Py.nl in
  let out := (stdout w ++ [line])%list in
  let log :=
    try_except
      (_ <- open_file (log_io env) ;; Ok (notification_log w ++ [msg])%list)
      (fun _ => notification_log w) in
  (true, {| storage := storage w; notification_log := log; stdout := out |}).

(** *** [run_pipeline] *)

Record LoopState : Type := {
  st_items : list dict;
  st_errors : list string;
  st_world : World
}.

(** How the body of the loop leaves one iteration when it does not raise. *)
Inductive outcome : Type :=
| Skipped
| Processed (item : dict) (w : World).

(** Lines 104 to 110: the item as it is first built. *)
Definition new_item (text : string) (summary sentiment : json)
  (now : string) : dict :=
  [("original", JStr text);
   ("analysis", summary);
   ("sentiment", sentiment);
   ("stored", JBool false);
   ("timestamp", JStr (now ++ "Z"))].

(** Lines 100 to 112, the [try] block of the loop. *)
Definition comment_body (req : PipelineRequest) (env : Env) (i : nat)
  (comment : json) (w : World) : exc outcome :=
  body <- Py.get comment "body" (JStr "") ;;
  text <- Py.strip body ;;
  if String.eqb text "" then Ok Skipped
  else
    let ai := analyze_with_ai env i text in
    summary <- Py.getitem ai "summary" ;;
    sentiment <- Py.getitem ai "sentiment" ;;
    let item :=
      new_item text summary sentiment (utcnow_isoformat env (AtComment i)) in
    let (stored, w') := store_result (storage_io env i) item (source req) w in
    Ok (Processed (Py.set "stored" (JBool stored) item) w').

Definition comment_error (msg : string) : string :=
  "Comment error: " ++ Py.str_prefix 80 msg.

Definition process_comment (req : PipelineRequest) (env : Env) (i : nat)
  (comment : json) (st : LoopState) : LoopState :=
  match comment_body req env i comment (st_world st) with
  | Ok Skipped => st
  | Ok (Processed item w') =>
      {| st_items := (st_items st ++ [item])%list;
         st_errors := st_errors st;
         st_world := w' |}
  | Raise msg =>
      {| st_items := st_items st;
         st_errors := (st_errors st ++ [comment_error msg])%list;
         st_world := st_world st |}
  end.

Fixpoint for_each (req : PipelineRequest) (env : Env) (i : nat)
  (comments : list json) (st : LoopState) : LoopState :=
  match comments with
  | [] => st
  | comment :: rest =>
      for_each req env (S i) rest (process_comment req env i comment st)
  end.

(** Lines 89 to 96: the comments to loop over and the first errors. *)
Definition fetch_or_empty (env : Env) : json * list string :=
  match fetch_comments env with
  | Ok comments => (comments, [])
  | Raise msg => (JArr [], [msg])
  end.

Definition run_pipeline (req : PipelineRequest) (env : Env) (w : World)
  : exc Response * World :=
  let (comments, errs) := fetch_or_empty env in
  match Py.iter comments with
  | Raise msg => (Raise msg, w)
  | Ok cs =>
      let st :=
        for_each req env 0 cs
          {| st_items := []; st_errors := errs; st_world := w |} in
      let (sent, w') :=
        send_notification env (email req)
          (0 <? List.length (st_items st))%nat (st_world st) in
      (Ok {| items := st_items st;
             notificationSent := sent;
             processedAt := utcnow_isoformat env AtResponse ++ "Z";
             errors := st_errors st |},
       w')
  end.

End Pipeline.

(** ** What the claims speak about *)

Section Observations.

Context {codec : JsonCodec}.

(** The comments the loop visits: what [fetch_comments] returned, or nothing
    when it raised. *)
Definition fetched_comments (env : Env) : list json :=
  match Py.iter (fst (fetch_or_empty env)) with
  | Ok cs => cs
  | Raise _ => []
  end.

(** A comment whose [body], absent or present, is a string that is empty
    once trimmed. *)
Definition blank_body (comment : json) : bool :=
  match comment with
  | JObj d =>
      match Py.lookup "body" d with
      | None => true
      | Some (JStr s) => String.eqb (Py.str_strip s) ""
      | Some _ => false
      end
  | _ => false
  end.

Definition skipped_empty (comments : list json) : nat :=
  List.length (filter blank_body comments).

(** An entry of [errors] written by the handler of the loop. *)
Definition is_comment_error (e : string) : bool :=
  String.prefix "Comment error: " e.

(** An entry of [errors] written for a failed fetch. *)
Definition is_fetch_error (e : string) : bool :=
  String.prefix "Fetch failed: " e.

Definition comment_errors (errs : list string) : nat :=
  List.length (filter is_comment_error errs).

Definition is_sentiment (v : json) : bool :=
  match v with
  | JStr s =>
      String.eqb s "positive" || String.eqb s "negative"
      || String.eqb s "neutral"
  | _ => false
  end.

Definition keys (d : dict) : list string := map fst d.

Definition response_keys : list string :=
  ["original"; "analysis"; "sentiment"; "stored"; "timestamp"].

(** The collection [store_result] would append to, when the file can be
    read: empty for an absent or undecodable file, and none when the file
    decodes to something that is not a list. *)
Definition collection (w : World) : option (list json) :=
  match storage w with
  | None => Some []
  | Some content =>
      match json_loads content with
      | Ok (JArr xs) => Some xs
      | Ok _ => None
      | Raise _ => Some []
      end
  end.

Definition is_stored (item : dict) : bool :=
  match Py.lookup "stored" item with
  | Some (JBool true) => true
  | _ => false
  end.

(** The record [store_result] writes for an item of the response. *)
Definition record_of (src : string) (item : dict) : json :=
  JObj (Py.set "source" (JStr src) (Py.set "stored" (JBool false) item)).

End Observations.

(** ** What a comment leads to *)

Section Readings.

Context {codec : JsonCodec}.

(** The text the loop goes on with: the trimmed body of a dict whose [body]
    is a string that is not blank. *)
Definition comment_text (comment : json) : option string :=
  match comment with
  | JObj d =>
      match Py.lookup "body" d with
      | Some (JStr s) =>
          if String.eqb (Py.str_strip s) "" then None
          else Some (Py.str_strip s)
      | _ => None
      end
  | _ => None
  end.

(** The message of the exception lines 100 raises: on a comment that is not
    a dict, and on a body that is not a string. *)
Definition comment_exception (comment : json) : option string :=
  match comment with
  | JObj d =>
      match Py.lookup "body" d with
      | None => None
      | Some (JStr _) => None
      | Some v => Some (Py.attribute_error v "strip")
      end
  | v => Some (Py.attribute_error v "get")
  end.

(** The comments with a text, each with its place in the loop. *)
Fixpoint indexed_texts (i : nat) (comments : list json)
  : list (nat * string) :=
  match comments with
  | [] => []
  | c :: rest =>
      match comment_text c with
      | Some text => (i, text) :: indexed_texts (S i) rest
      | None => indexed_texts (S i) rest
      end
  end.

(** The entries of [errors] for the comments that cannot be read, the
    message being written in full. *)
Fixpoint failures (comments : list json) : list string :=
  match comments with
  | [] => []
  | c :: rest =>
      match comment_exception c with
      | Some msg => ("Comment error: " ++ msg) :: failures rest
      | None => failures rest
      end
  end.

(** [item] is the item of the comment at place [fst it], of text [snd it]:
    its analysis and sentiment are what [analyze_with_ai] returned for that
    text, and its timestamp is the clock read for that comment. *)
Definition is_item_of (env : Env) (it : nat * string) (item : dict) : Prop :=
  exists summary sentiment stored,
    analyze_with_ai env (fst it) (snd it)
    = [("summary", summary); ("sentiment", sentiment)] /\
    item
    = [("original", JStr (snd it));
       ("analysis", summary);
       ("sentiment", sentiment);
       ("stored", JBool stored);
       ("timestamp",
        JStr (utcnow_isoformat env (AtComment (fst it)) ++ "Z"))].

(** The storage file is absent, or it can be opened for reading. *)
Definition readable (io : file_io) (w : World) : Prop :=
  storage w = None \/ open_read io = IoOk.

(** A JSON value that [data[:3]] cannot slice. *)
Definition not_sequence (data : json) : bool :=
  match data with
  | JArr _ | JStr _ => false
  | _ => true
  end.

Definition is_str (v : json) : bool :=
  match v with
  | JStr _ => true
  | _ => false
  end.

Definition is_dict (v : json) : bool :=
  match v with
  | JObj _ => true
  | _ => false
  end.

(** [d.get(key, default)] on a dict. *)
Definition get_or (key : string) (default : json) (d : dict) : json :=
  match Py.lookup key d with
  | Some v => v
  | None => default
  end.

(** The state of the loop of a run after its first [k] iterations. *)
Definition loop_state (req : PipelineRequest) (env : Env) (w : World)
  (k : nat) : LoopState :=
  for_each req env 0 (firstn k (fetched_comments env))
    {| st_items := [];
       st_errors := snd (fetch_or_empty env);
       st_world := w |}.

(** From [before] to [after] no record was added to the storage file: the
    file is as it was, or [json.dump] raised and left it cut. *)
Definition not_appended (before after : World) : Prop :=
  storage after = storage before
  \/ exists data msg cut,
       json_dump data = DumpRaise msg cut /\ storage after = Some cut.

(** From [before] to [after] the storage file was rewritten whole, as the
    collection it held followed by [record]. *)
Definition appended (before after : World) (record : dict) : Prop :=
  exists prior text,
    collection before = Some prior /\
    json_dump (JArr (prior ++ [JObj record])) = Dumped text /\
    storage after = Some text.

End Readings.

(** ** A codec to run the program with *)

Module Sample.

(** A text is the encoding of a value, or it is not JSON. *)
Inductive text : Type :=
| Encoded (j : json)
| Malformed (raw : string).

Definition decode (t : text) : exc json :=
  match t with
  | Encoded j => Ok j
  | Malformed _ => Raise "Expecting value: line 1 column 1 (char 0)"
  end.

(** How deep the lists and dicts of a value are nested. *)
Fixpoint depth (j : json) : nat :=
  match j with
  | JArr xs => S (fold_right (fun x n => Nat.max (depth x) n) 0 xs)
  | JObj kvs =>
      S (fold_right
           (fun (kv : string * json) n =>
              Nat.max (let (_, v) := kv in depth v) n)
           0 kvs)
  | _ => 0
  end.

(** The nesting the encoder goes down to before it gives up, standing for
    the recursion limit of the interpreter. *)
Definition max_depth : nat := 900.

(** A value nested too deep is not written whole: the file is left with the
    opening bracket. *)
Definition encode (j : json) : dump_result text :=
  if (depth j <=? max_depth)%nat then Dumped (Encoded j)
  else
    DumpRaise "maximum recursion depth exceeded while encoding a JSON object"
      (Malformed "[").

#[export] Instance codec : JsonCodec :=
  {| document := text; json_loads := decode; json_dump := encode |}.

Definition no_fault : file_io := {| open_read := IoOk; open_write := IoOk |}.

Definition read_only : file_io :=
  {| open_read := IoOk;
     open_write := IoError "[Errno 13] Permission denied" |}.

Definition empty_world : World :=
  {| storage := None; notification_log := []; stdout := [] |}.

Definition request : PipelineRequest :=
  {| email := "a@b.c"; source := "web" |}.

Definition comment (body : string) : json :=
  JObj [("postId", JInt 1); ("body", JStr body)].

Definition reply (summary sentiment : string) : completion :=
  CompletionContent
    (Encoded (JObj [("summary", JStr summary); ("sentiment", JStr sentiment)])).

(** An environment whose model answers every call with [answer]. *)
Definition env_with (http : http_result) (answer : completion)
  (io : file_io) : Env :=
  {| http_get := http;
     chat_completion := fun _ _ => answer;
     storage_io := fun _ => io;
     log_io := IoOk;
     utcnow_isoformat := fun _ => "2024-01-01T00:00:00" |}.

Definition empty_fetch : Env :=
  env_with (HttpJson (JArr [])) (reply "Fine." "positive") no_fault.

Definition failed_fetch : Env :=
  env_with (HttpRaise "timed out") (reply "Fine." "positive") no_fault.

Definition one_comment : http_result :=
  HttpJson (JArr [comment "Great post"]).

Definition positive_reply : Env :=
  env_with one_comment (reply "Praise." "positive") no_fault.

(** The model answers with a sentiment outside the three values. *)
Definition mixed_reply : Env :=
  env_with one_comment (reply "Praise." "Mixed") no_fault.

Definition failing_model : Env :=
  env_with one_comment (CompletionRaise "Connection error.") no_fault.

(** Three comments; the call to the model for the second one fails. *)
Definition second_call_fails : Env :=
  {| http_get :=
       HttpJson (JArr [comment "Great post"; comment "Hm"; comment "Bad"]);
     chat_completion :=
       fun i _ =>
         match i with
         | 0 => reply "Praise." "positive"
         | 1 => CompletionRaise "Connection error."
         | _ => reply "Blame." "NEGATIVE"
         end;
     storage_io := fun _ => no_fault;
     log_io := IoOk;
     utcnow_isoformat := fun _ => "2024-01-01T00:00:00" |}.

Definition stamp : string := "2024-01-01T00:00:00Z".

Definition item : dict :=
  new_item "Great post" (JStr "Praise.") (JStr "positive")
    "2024-01-01T00:00:00".

Definition corrupt_world : World :=
  {| storage := Some (Malformed "[{");
     notification_log := [];
     stdout := [] |}.

Definition old_record : json :=
  JObj [("original", JStr "old"); ("source", JStr "mail")].

Definition stocked_world : World :=
  {| storage := Some (Encoded (JArr [old_record]));
     notification_log := [];
     stdout := [] |}.

(** The source answers with a JSON object instead of a list. *)
Definition object_fetch : Env :=
  env_with (HttpJson (JObj [("error", JStr "rate limited")]))
    (reply "Fine." "positive") no_fault.

(** The model answers with an object that has neither key. *)
Definition empty_reply : Env :=
  env_with one_comment (CompletionContent (Encoded (JObj []))) no_fault.

(** The model answers with a list. *)
Definition list_reply : Env :=
  env_with one_comment (CompletionContent (Encoded (JArr []))) no_fault.

(** The model answers with a number for the sentiment. *)
Definition numeric_sentiment : Env :=
  env_with one_comment
    (CompletionContent
       (Encoded (JObj [("summary", JStr "Praise."); ("sentiment", JInt 1)])))
    no_fault.

(** The storage file holds a JSON object. *)
Definition object_world : World :=
  {| storage := Some (Encoded (JObj []));
     notification_log := [];
     stdout := [] |}.

Definition other_item : dict :=
  new_item "Bad" (JStr "Blame.") (JStr "negative") "2024-01-01T00:00:01".

(** A value nested [n] lists deep. *)
Fixpoint nest (n : nat) : json :=
  match n with
  | 0 => JStr "x"
  | S n' => JArr [nest n']
  end.

(** An item whose analysis is nested deeper than the encoder goes. *)
Definition deep_item : dict :=
  new_item "Great post" (nest 995) (JStr "positive") "2024-01-01T00:00:00".

End Sample.

(** ** Properties *)

Lemma sample_round_trip : JsonRoundTrip Sample.codec.
Proof.
  intros j text. simpl. unfold Sample.encode.
  destruct (Sample.depth j <=? Sample.max_depth)%nat; [|discriminate].
  now intros [= <-].
Qed.

(** *** Dicts *)

Lemma lookup_set_same (key : string) (v : json) (d : dict) :
  Py.lookup key (Py.set key v d) = Some v.
Proof.
  induction d as [|[k v0] d IH]; simpl.
  - now rewrite String.eqb_refl.
  - destruct (String.eqb k key) eqn:E; simpl; rewrite E; [reflexivity|exact IH].
Qed.

Lemma lookup_set_other (key k' : string) (v : json) (d : dict) :
  k' <> key -> Py.lookup k' (Py.set key v d) = Py.lookup k' d.
Proof.
  intros N. induction d as [|[k v0] d IH]; simpl.
  - apply String.eqb_neq in N. now rewrite String.eqb_sym, N.
  - destruct (String.eqb k key) eqn:E; simpl.
    + apply String.eqb_eq in E. subst k.
      apply not_eq_sym, String.eqb_neq in N. now rewrite N.
    + now rewrite IH.
Qed.

Lemma firstn_next {A : Type} (l : list A) (k : nat) :
  firstn (S k) l = firstn k l
  \/ exists x, firstn (S k) l = (firstn k l ++ [x])%list.
Proof.
  revert k. induction l as [|a l IH]; intros k.
  - left. now destruct k.
  - destruct k as [|k].
    + right. exists a. reflexivity.
    + destruct (IH k) as [E|[x E]].
      * left. simpl in *. now rewrite E.
      * right. exists x. simpl in *. now rewrite E.
Qed.

(** *** Strings *)

Lemma str_prefix_length (n : nat) (s : string) :
  String.length (Py.str_prefix n s) <= n.
Proof.
  unfold Py.str_prefix. revert s.
  induction n as [|n IH]; intros [|c s]; simpl; try lia.
  specialize (IH s). lia.
Qed.

Lemma prefix_append (p s : string) : String.prefix p (p ++ s) = true.
Proof.
  induction p as [|c p IH]; simpl.
  - now destruct s.
  - destruct (ascii_dec c c) as [_|N]; [exact IH|now destruct N].
Qed.

Lemma comment_error_is_comment_error (msg : string) :
  is_comment_error (comment_error msg) = true.
Proof. apply prefix_append. Qed.

Lemma fetch_error_not_comment_error (msg : string) :
  is_comment_error ("Fetch failed: " ++ msg) = false.
Proof. reflexivity. Qed.

Lemma comment_errors_app (l1 l2 : list string) :
  comment_errors (l1 ++ l2) = comment_errors l1 + comment_errors l2.
Proof. unfold comment_errors. now rewrite filter_app, length_app. Qed.

Lemma comment_errors_snoc (errs : list string) (msg : string) :
  comment_errors (errs ++ [comment_error msg]) = S (comment_errors errs).
Proof.
  rewrite comment_errors_app. unfold comment_errors at 2.
  cbn [filter]. rewrite comment_error_is_comment_error. simpl. lia.
Qed.

Section Steps.

Context {codec : JsonCodec}.

(** *** [fetch_comments] *)

Lemma fetch_comments_raise (env : Env) (msg : string) :
  fetch_comments env = Raise msg ->
  exists m, msg = "Fetch failed: " ++ m.
Proof.
  unfold fetch_comments.
  destruct (http_get env) as [m|data].
  - intros [= <-]. now exists m.
  - destruct (Py.slice3 data) as [c|m]; [discriminate|].
    intros [= <-]. now exists m.
Qed.

Lemma fetch_comments_ok (env : Env) (c : json) :
  fetch_comments env = Ok c ->
  (exists xs, c = JArr xs /\ List.length xs <= 3)
  \/ (exists s, c = JStr s /\ String.length s <= 3).
Proof.
  unfold fetch_comments.
  destruct (http_get env) as [m|data]; [discriminate|].
  unfold Py.slice3.
  destruct data as [| | | |s|xs|]; try discriminate; intros H.
  - right. exists (Py.str_prefix 3 s).
    split; [now injection H|apply str_prefix_length].
  - left. exists (firstn 3 xs).
    split; [now injection H|apply firstn_le_length].
Qed.

(** The value the loop runs over can always be iterated. *)
Lemma fetch_or_empty_iter (env : Env) :
  Py.iter (fst (fetch_or_empty env)) = Ok (fetched_comments env).
Proof.
  unfold fetched_comments, fetch_or_empty.
  destruct (fetch_comments env) as [c|m] eqn:E; [|reflexivity].
  destruct (fetch_comments_ok _ _ E) as [(xs & -> & _)|(s & -> & _)];
    reflexivity.
Qed.

(** *** [analyze_with_ai] *)

Lemma analyze_with_ai_shape (env : Env) (i : nat) (text : string) :
  exists summary sentiment,
    analyze_with_ai env i text
    = [("summary", summary); ("sentiment", JStr sentiment)].
Proof.
  unfold analyze_with_ai, try_except.
  destruct (analyze_body env i text) as [d|msg] eqn:E.
  - unfold analyze_body, bind in E.
    destruct (create_completion _ _ _); [|discriminate].
    destruct (json_loads _) as [result|]; [|discriminate].
    destruct (Py.get result "summary" _); [|discriminate].
    destruct (Py.get result "sentiment" _) as [raw|]; [|discriminate].
    destruct (Py.lower raw); [|discriminate].
    injection E as <-. eauto.
  - unfold degraded. eauto.
Qed.

(** *** The body of the loop *)

Lemma comment_body_blank (req : PipelineRequest) (env : Env) (i : nat)
  (c : json) (w : World) :
  blank_body c = true -> comment_body req env i c w = Ok Skipped.
Proof.
  unfold blank_body, comment_body.
  destruct c as [| | | | |xs|d]; try discriminate. simpl.
  destruct (Py.lookup "body" d) as [[| | | |s| |]|]; try discriminate; simpl.
  - now intros ->.
  - reflexivity.
Qed.

Lemma comment_body_ok (req : PipelineRequest) (env : Env) (i : nat)
  (c : json) (w : World) (o : outcome) :
  comment_body req env i c w = Ok o ->
  blank_body c = true /\ o = Skipped
  \/ blank_body c = false /\
     exists text summary sentiment,
       text <> "" /\
       analyze_with_ai env i text
       = [("summary", summary); ("sentiment", JStr sentiment)] /\
       let item :=
         new_item text summary (JStr sentiment)
           (utcnow_isoformat env (AtComment i)) in
       let r := store_result (storage_io env i) item (source req) w in
       o = Processed (Py.set "stored" (JBool (fst r)) item) (snd r).
Proof.
  destruct (blank_body c) eqn:B.
  - rewrite (comment_body_blank _ _ _ _ _ B). intros [= <-]. now left.
  - intros H. right. split; [reflexivity|].
    unfold comment_body, bind in H.
    destruct (Py.get c "body" _) as [body|] eqn:G; [|discriminate].
    destruct (Py.strip body) as [text|] eqn:S; [|discriminate].
    destruct (String.eqb text "") eqn:T.
    + exfalso. apply String.eqb_eq in T. subst text.
      destruct c as [| | | | |xs|d]; try discriminate.
      simpl in G, B. injection G as <-.
      destruct (Py.lookup "body" d) as [[| | | |s| |]|];
        try discriminate.
      simpl in S. injection S as S. rewrite S in B. discriminate.
    + destruct (analyze_with_ai_shape env i text) as (summary & sent & A).
      exists text, summary, sent.
      split; [now apply String.eqb_neq|]. split; [exact A|].
      rewrite A in H. simpl in H.
      destruct (store_result _ _ _ _) as [stored w'] eqn:R.
      injection H as <-. cbv zeta. now rewrite R.
Qed.

End Steps.

(** From [B : comment_body ... = Ok (Processed item w')], the text the item
    was built from, that it is not empty ([T]) and the equation of the item
    and the world ([E]). *)
Ltac processed B text T E :=
  let H := fresh "H" in
  let summary := fresh "summary" in
  let sent := fresh "sent" in
  destruct (comment_body_ok _ _ _ _ _ _ B) as [[_ H]|[_ H]];
  [discriminate H|];
  destruct H as (text & summary & sent & T & _ & E);
  cbv zeta in E.

Section Loop.

Context {codec : JsonCodec}.

(** Every iteration ends in exactly one of three ways. *)
Lemma process_comment_cases (req : PipelineRequest) (env : Env) (i : nat)
  (c : json) (st : LoopState) :
  (blank_body c = true /\ process_comment req env i c st = st)
  \/ (blank_body c = false /\
      exists item w',
        comment_body req env i c (st_world st) = Ok (Processed item w') /\
        process_comment req env i c st
        = {| st_items := st_items st ++ [item];
             st_errors := st_errors st;
             st_world := w' |})
  \/ (blank_body c = false /\
      exists msg,
        comment_body req env i c (st_world st) = Raise msg /\
        process_comment req env i c st
        = {| st_items := st_items st;
             st_errors := (st_errors st ++ [comment_error msg])%list;
             st_world := st_world st |}).
Proof.
  unfold process_comment.
  destruct (comment_body req env i c (st_world st)) as [o|msg] eqn:E.
  - destruct (comment_body_ok _ _ _ _ _ _ E) as [[B ->]|[B H]].
    + now left.
    + right; left. split; [exact B|].
      destruct H as (text & summary & sent & _ & _ & ->). eauto.
  - right; right. split; [|eauto].
    destruct (blank_body c) eqn:B; [|reflexivity].
    rewrite (comment_body_blank _ _ _ _ _ B) in E. discriminate.
Qed.

(** *** The whole run *)

Lemma run_pipeline_eq (req : PipelineRequest) (env : Env) (w : World) :
  let st :=
    for_each req env 0 (fetched_comments env)
      {| st_items := [];
         st_errors := snd (fetch_or_empty env);
         st_world := w |} in
  run_pipeline req env w
  = (Ok {| items := st_items st;
           notificationSent := true;
           processedAt := utcnow_isoformat env AtResponse ++ "Z";
           errors := st_errors st |},
     snd (send_notification env (email req)
            (0 <? List.length (st_items st))%nat (st_world st))).
Proof.
  unfold run_pipeline.
  pose proof (fetch_or_empty_iter env) as I.
  destruct (fetch_or_empty env) as [c errs]. simpl in I. rewrite I.
  reflexivity.
Qed.

Lemma for_each_count (req : PipelineRequest) (env : Env)
  (cs : list json) (i : nat) (st : LoopState) :
  let st' := for_each req env i cs st in
  List.length (st_items st') + skipped_empty cs
  + comment_errors (st_errors st')
  = List.length (st_items st) + comment_errors (st_errors st)
    + List.length cs.
Proof.
  revert i st. induction cs as [|c cs IH]; intros i st; simpl.
  - unfold skipped_empty. simpl. lia.
  - specialize (IH (S i) (process_comment req env i c st)).
    cbv zeta in IH.
    unfold skipped_empty in *. cbn [filter List.length].
    destruct (process_comment_cases req env i c st)
      as [[B E]|[(B & item & w' & _ & E)|(B & msg & _ & E)]];
      rewrite B; rewrite E in *; cbn [st_items st_errors List.length] in *.
    + lia.
    + rewrite length_app in IH. simpl in IH. lia.
    + rewrite comment_errors_snoc in IH. lia.
Qed.

(** A property of the items that every iteration keeps holds at the end. *)
Lemma for_each_items (P : dict -> Prop) (req : PipelineRequest) (env : Env) :
  (forall i c w item w',
      comment_body req env i c w = Ok (Processed item w') -> P item) ->
  forall cs i st,
    Forall P (st_items st) ->
    Forall P (st_items (for_each req env i cs st)).
Proof.
  intros step cs. induction cs as [|c cs IH]; intros i st H; simpl.
  - exact H.
  - apply IH.
    destruct (process_comment_cases req env i c st)
      as [[_ E]|[(_ & item & w' & B & E)|(_ & msg & _ & E)]];
      rewrite E; simpl; try exact H.
    apply Forall_app. split; [exact H|].
    constructor; [|constructor]. exact (step _ _ _ _ _ B).
Qed.

Lemma fetch_or_empty_comment_errors (env : Env) :
  comment_errors (snd (fetch_or_empty env)) = 0.
Proof.
  unfold fetch_or_empty.
  destruct (fetch_comments env) as [c|msg] eqn:E; [reflexivity|].
  destruct (fetch_comments_raise _ _ E) as [m ->].
  unfold comment_errors. cbn [snd filter].
  now rewrite fetch_error_not_comment_error.
Qed.

(** *** [store_result] *)

Lemma load_data_collection (io : file_io) (w : World) (data : json) :
  load_data io w = Ok data ->
  collection w = match data with JArr xs => Some xs | _ => None end.
Proof.
  unfold load_data, collection.
  destruct (storage w) as [content|]; [|now intros [= <-]].
  destruct (open_file (open_read io)); [|discriminate]. simpl.
  intros [= <-].
  destruct (json_loads content) as [[| | | | |xs|]|]; reflexivity.
Qed.

(** [store_result] when nothing stops it before the write. *)
Lemma store_result_write (io : file_io) (item : dict) (src : string)
  (w : World) (prior : list json) :
  readable io w ->
  open_write io = IoOk ->
  collection w = Some prior ->
  store_result io item src w
  = match
      json_dump (JArr (prior ++ [JObj (Py.set "source" (JStr src) item)]))
    with
    | Dumped text => (true, with_storage w text)
    | DumpRaise _ cut => (false, with_storage w cut)
    end.
Proof.
  unfold readable, collection, store_result, store_body, load_data,
    write_data.
  intros R W C. rewrite W.
  destruct (storage w) as [content|].
  - destruct R as [R|R]; [discriminate|]. rewrite R. simpl.
    destruct (json_loads content) as [[| | | | |xs|]|]; try discriminate;
      injection C as <-; simpl; now destruct (json_dump _).
  - injection C as <-. simpl. now destruct (json_dump _).
Qed.

(** [store_result] gives up before the write, or gets to it. *)
Lemma store_result_cases (io : file_io) (item : dict) (src : string)
  (w : World) :
  store_result io item src w = (false, w)
  \/ exists prior,
       readable io w /\ open_write io = IoOk /\ collection w = Some prior.
Proof.
  unfold readable, store_result, store_body, write_data.
  destruct (load_data io w) as [data|] eqn:L; [|now left].
  pose proof (load_data_collection _ _ _ L) as C.
  destruct data as [| | | | |xs|]; try (now left). simpl.
  destruct (open_write io); [|now left]. right. exists xs.
  split; [|now split].
  unfold load_data in L. destruct (storage w); [|now left].
  right. now destruct (open_read io).
Qed.

Lemma store_result_true (io : file_io) (item : dict) (src : string)
  (w w' : World) :
  store_result io item src w = (true, w') ->
  exists prior text,
    readable io w /\ open_write io = IoOk /\ collection w = Some prior /\
    json_dump (JArr (prior ++ [JObj (Py.set "source" (JStr src) item)]))
    = Dumped text /\
    w' = with_storage w text.
Proof.
  intros S.
  destruct (store_result_cases io item src w) as [F|(prior & R & W & C)];
    [congruence|].
  rewrite (store_result_write io item src w prior R W C) in S.
  destruct (json_dump _) as [text|m cut] eqn:D; [|discriminate].
  injection S as <-. exists prior, text. auto.
Qed.

Lemma store_result_false (io : file_io) (item : dict) (src : string)
  (w w' : World) :
  store_result io item src w = (false, w') ->
  w' = w
  \/ exists data msg cut,
       json_dump data = DumpRaise msg cut /\ w' = with_storage w cut.
Proof.
  intros S.
  destruct (store_result_cases io item src w) as [F|(prior & R & W & C)].
  - left. congruence.
  - rewrite (store_result_write io item src w prior R W C) in S.
    destruct (json_dump _) as [text|m cut] eqn:D; [discriminate|].
    injection S as <-. right. eauto.
Qed.

Lemma collection_with_storage {rt : JsonRoundTrip codec} (w : World)
  (xs : list json) (text : document) :
  json_dump (JArr xs) = Dumped text ->
  collection (with_storage w text) = Some xs.
Proof. intros D. unfold collection. simpl. now rewrite (loads_dump _ _ D). Qed.

Lemma send_notification_storage (env : Env) (to : string) (success : bool)
  (w : World) :
  storage (snd (send_notification env to success w)) = storage w.
Proof. reflexivity. Qed.

(** *** One iteration of a run *)

Lemma process_comment_store (req : PipelineRequest) (env : Env) (i : nat)
  (c : json) (st : LoopState) :
  let st' := process_comment req env i c st in
  (st_items st' = st_items st /\ st_world st' = st_world st)
  \/ exists text summary sentiment,
       let item :=
         new_item text summary sentiment
           (utcnow_isoformat env (AtComment i)) in
       let r := store_result (storage_io env i) item (source req)
                  (st_world st) in
       st_items st'
       = (st_items st ++ [Py.set "stored" (JBool (fst r)) item])%list
       /\ st_world st' = snd r.
Proof.
  cbv zeta.
  destruct (process_comment_cases req env i c st)
    as [[_ E]|[(_ & item & w' & B & E)|(_ & msg & _ & E)]]; rewrite E.
  - now left.
  - right. processed B text T H. injection H as -> ->.
    exists text, summary, (JStr sent). now split.
  - now left.
Qed.

Lemma for_each_snoc (req : PipelineRequest) (env : Env) (cs : list json)
  (c : json) (i : nat) (st : LoopState) :
  for_each req env i (cs ++ [c]) st
  = process_comment req env (i + List.length cs) c (for_each req env i cs st).
Proof.
  revert i st. induction cs as [|a cs IH]; intros i st; simpl.
  - now rewrite Nat.add_0_r.
  - rewrite IH. now rewrite Nat.add_succ_r.
Qed.

Lemma loop_state_next (req : PipelineRequest) (env : Env) (w : World)
  (k : nat) :
  loop_state req env w (S k) = loop_state req env w k
  \/ exists i c,
       loop_state req env w (S k)
       = process_comment req env i c (loop_state req env w k).
Proof.
  unfold loop_state.
  destruct (firstn_next (fetched_comments env) k) as [->|[c ->]];
    [now left|right].
  rewrite for_each_snoc. eauto.
Qed.

Lemma loop_state_end (req : PipelineRequest) (env : Env) (w : World) :
  loop_state req env w (List.length (fetched_comments env))
  = for_each req env 0 (fetched_comments env)
      {| st_items := [];
         st_errors := snd (fetch_or_empty env);
         st_world := w |}.
Proof. unfold loop_state. now rewrite firstn_all. Qed.

(** What one more iteration of a run does to the items and to the storage
    file: nothing; or a new item whose store failed, the file being as it was
    or cut; or a new item whose store succeeded, the file being rewritten
    with the record built from the item as it was before the store. *)
Lemma loop_step (req : PipelineRequest) (env : Env) (w : World) (k : nat) :
  let before := loop_state req env w k in
  let after := loop_state req env w (S k) in
  (st_items after = st_items before /\ st_world after = st_world before)
  \/ (exists text summary sentiment now,
        let item := new_item text summary sentiment now in
        st_items after = (st_items before ++ [item])%list /\
        not_appended (st_world before) (st_world after))
  \/ (exists text summary sentiment now,
        let item := new_item text summary sentiment now in
        st_items after
        = (st_items before ++ [Py.set "stored" (JBool true) item])%list /\
        appended (st_world before) (st_world after)
          (Py.set "source" (JStr (source req)) item)).
Proof.
  cbv zeta.
  destruct (loop_state_next req env w k) as [->|(i & c & ->)]; [now left|].
  destruct (process_comment_store req env i c (loop_state req env w k))
    as [N|(text & summary & sentiment & I & W)]; [now left|].
  cbv zeta in I, W. rewrite I, W. clear I W.
  destruct (store_result _ _ _ _) as [[|] w'] eqn:S; cbn [fst snd].
  - right; right.
    destruct (store_result_true _ _ _ _ _ S)
      as (prior & doc & _ & _ & C & D & ->).
    exists text, summary, sentiment, (utcnow_isoformat env (AtComment i)).
    split; [reflexivity|]. exists prior, doc. now split.
  - right; left.
    exists text, summary, sentiment, (utcnow_isoformat env (AtComment i)).
    split; [reflexivity|].
    destruct (store_result_false _ _ _ _ _ S)
      as [->|(data & msg & cut & D & ->)]; [now left|right; eauto].
Qed.

End Loop.


(** ** The claims *)

Section Claims.

Context {codec : JsonCodec}.

(** C1. A run of the pipeline always returns a response, and in it every
    fetched comment is accounted for exactly once: the number of items, plus
    the number of fetched comments skipped because their trimmed body is
    empty, plus the number of per-comment error entries, is the number of
    fetched comments. *)
Theorem every_comment_accounted_once (req : PipelineRequest) (env : Env)
  (w : World) :
  exists resp w',
    run_pipeline req env w = (Ok resp, w') /\
    List.length (items resp) + skipped_empty (fetched_comments env)
    + comment_errors (errors resp)
    = List.length (fetched_comments env).
Proof.
  rewrite run_pipeline_eq. cbv zeta.
  eexists. eexists. split; [reflexivity|]. simpl.
  pose proof (for_each_count req env (fetched_comments env) 0
                {| st_items := [];
                   st_errors := snd (fetch_or_empty env);
                   st_world := w |}) as H.
  simpl in H. rewrite fetch_or_empty_comment_errors in H. lia.
Qed.

(** C3, as the program has it. When the fetch returns an empty list, the
    response has no items and no errors, and [notificationSent] is true: the
    Notifier is called with the success flag false and always reports that
    it sent. *)
Theorem empty_fetch_response (req : PipelineRequest) (env : Env) (w : World) :
  fetch_comments env = Ok (JArr []) ->
  exists resp w',
    run_pipeline req env w = (Ok resp, w') /\
    items resp = [] /\ errors resp = [] /\ notificationSent resp = true /\
    w' = snd (send_notification env (email req) false w).
Proof.
  intros F. rewrite run_pipeline_eq.
  unfold fetched_comments, fetch_or_empty. rewrite F. simpl.
  eexists. eexists. repeat split; reflexivity.
Qed.

(** C5. When the fetch fails, the run still returns a response (nothing is
    raised to the caller), the response has no items, and its errors are
    exactly one entry, the message of the fetch failure. *)
Theorem fetch_failure_is_reported (req : PipelineRequest) (env : Env)
  (w : World) (msg : string) :
  fetch_comments env = Raise msg ->
  exists resp w',
    run_pipeline req env w = (Ok resp, w') /\
    items resp = [] /\ errors resp = [msg] /\ is_fetch_error msg = true.
Proof.
  intros F. rewrite run_pipeline_eq.
  unfold fetched_comments, fetch_or_empty. rewrite F. simpl.
  eexists. eexists. repeat split; try reflexivity.
  destruct (fetch_comments_raise _ _ F) as [m ->]. apply prefix_append.
Qed.

(** C4. When the call to the language model raises, or the text it returns
    does not decode as JSON, [analyze_with_ai] returns (it has no way to
    raise) the sentiment "neutral" and a summary made of the fixed prefix
    "AI failed: " and the first 80 characters, at most, of the message of the
    exception. *)
Theorem degraded_analysis (env : Env) (i : nat) (text msg : string) :
  chat_completion env i (prompt text) = CompletionRaise msg
  \/ (exists content,
        chat_completion env i (prompt text) = CompletionContent content /\
        json_loads content = Raise msg) ->
  exists detail,
    analyze_with_ai env i text
    = [("summary", JStr ("AI failed: " ++ detail));
       ("sentiment", JStr "neutral")] /\
    detail = Py.str_prefix 80 msg /\
    String.length detail <= 80.
Proof.
  intros H. exists (Py.str_prefix 80 msg).
  split; [|split; [reflexivity|apply str_prefix_length]].
  unfold analyze_with_ai, analyze_body, create_completion.
  destruct H as [-> | (content & -> & L)]; simpl.
  - reflexivity.
  - now rewrite L.
Qed.

(** C9. Every item of the response has an [original] that is a non-empty
    string, and an iteration on a comment whose body is absent, or empty once
    trimmed, changes nothing: it adds no item and no error. *)
Theorem original_never_empty (req : PipelineRequest) (env : Env) (w : World) :
  exists resp w',
    run_pipeline req env w = (Ok resp, w') /\
    Forall (fun item =>
              exists text,
                Py.lookup "original" item = Some (JStr text) /\ text <> "")
           (items resp) /\
    forall i comment st,
      blank_body comment = true ->
      process_comment req env i comment st = st.
Proof.
  rewrite run_pipeline_eq. cbv zeta.
  eexists. eexists. split; [reflexivity|]. split.
  - simpl. apply for_each_items; [|constructor].
    intros i c w0 item w' B.
    processed B text T E. injection E as -> _.
    exists text. split; [reflexivity|exact T].
  - intros i c st B.
    destruct (process_comment_cases req env i c st)
      as [[_ E]|[(B' & _)|(B' & _)]]; [exact E|congruence|congruence].
Qed.

(** C8, as the program has it. Every item of the response has exactly the
    five fields [original], [analysis], [sentiment], [stored] and
    [timestamp], and no [source]. The items are those of the loop, and at
    every iteration of the loop either the storage file gets no new record,
    or it is rewritten with one more record, which has the five fields
    followed by [source], [source] being the source of the request and the
    fields other than [stored] being those of the new item. *)
Theorem response_items_have_five_fields (req : PipelineRequest) (env : Env)
  (w : World) :
  exists resp w',
    run_pipeline req env w = (Ok resp, w') /\
    Forall (fun item =>
              keys item = response_keys /\ Py.lookup "source" item = None)
           (items resp) /\
    items resp
    = st_items
        (loop_state req env w (List.length (fetched_comments env))) /\
    forall k,
      let before := loop_state req env w k in
      let after := loop_state req env w (S k) in
      not_appended (st_world before) (st_world after)
      \/ exists item record,
           st_items after = (st_items before ++ [item])%list /\
           appended (st_world before) (st_world after) record /\
           keys record = (response_keys ++ ["source"])%list /\
           Py.lookup "source" record = Some (JStr (source req)) /\
           forall key,
             key <> "stored" -> key <> "source" ->
             Py.lookup key record = Py.lookup key item.
Proof.
  rewrite run_pipeline_eq. cbv zeta.
  eexists. eexists. split; [reflexivity|]. cbn [items]. split; [|split].
  - apply for_each_items; [|constructor].
    intros i c w0 item w' B.
    processed B text T E. injection E as -> _.
    split; reflexivity.
  - now rewrite loop_state_end.
  - intros k. cbv zeta.
    destruct (loop_step req env w k)
      as [[_ W]|[(text & summary & sentiment & now & _ & N)
                |(text & summary & sentiment & now & I & A)]].
    + left. left. now rewrite W.
    + left. exact N.
    + right. cbv zeta in I, A. eexists. eexists.
      split; [exact I|]. split; [exact A|].
      split; [reflexivity|]. split; [reflexivity|].
      intros key N1 N2.
      rewrite !lookup_set_other by assumption. reflexivity.
Qed.

(** C6, as the program has it. When the storage file exists and does not
    decode as JSON, and the file can be opened for reading and for writing
    and [json.dump] writes the collection made of the new record alone
    without raising, [store_result] returns [True] and the file holds that
    text, the other files being untouched; the new record has the source
    given as its [source] and the fields of the item for the rest. *)
Theorem corrupt_file_is_replaced (io : file_io) (item : dict) (src : string)
  (w : World) (content text : document) (msg : string) :
  storage w = Some content ->
  json_loads content = Raise msg ->
  open_read io = IoOk ->
  open_write io = IoOk ->
  json_dump (JArr [JObj (Py.set "source" (JStr src) item)]) = Dumped text ->
  exists record w',
    store_result io item src w = (true, w') /\
    json_dump (JArr [JObj record]) = Dumped text /\
    storage w' = Some text /\
    notification_log w' = notification_log w /\
    stdout w' = stdout w /\
    Py.lookup "source" record = Some (JStr src) /\
    forall key, key <> "source" ->
                Py.lookup key record = Py.lookup key item.
Proof.
  intros S L R W D.
  assert (collection w = Some []) as C.
  { unfold collection. now rewrite S, L. }
  pose proof (store_result_write io item src w [] (or_intror R) W C) as E.
  simpl in E. rewrite D in E.
  exists (Py.set "source" (JStr src) item), (with_storage w text).
  split; [exact E|]. split; [exact D|].
  split; [reflexivity|]. split; [reflexivity|]. split; [reflexivity|].
  split; [apply lookup_set_same|].
  intros key N. now apply lookup_set_other.
Qed.

(** C7. When the storage file holds a collection of length n (an absent or
    undecodable file counting as the empty collection) and [store_result]
    returns [True], the file decodes again, to a collection of length n + 1
    which is the prior one followed by one record; in that record [source]
    is the source given and every other field is the item's. *)
Theorem store_then_reload {rt : JsonRoundTrip codec} (io : file_io)
  (item : dict) (src : string) (w w' : World) (prior : list json) :
  collection w = Some prior ->
  store_result io item src w = (true, w') ->
  exists content reloaded record,
    storage w' = Some content /\
    json_loads content = Ok (JArr reloaded) /\
    List.length reloaded = List.length prior + 1 /\
    reloaded = (prior ++ [JObj record])%list /\
    last reloaded JNull = JObj record /\
    Py.lookup "source" record = Some (JStr src) /\
    forall key, key <> "source" ->
                Py.lookup key record = Py.lookup key item.
Proof.
  intros C S.
  destruct (store_result_true _ _ _ _ _ S)
    as (xs & text & _ & _ & X & D & ->).
  rewrite C in X. injection X as <-.
  exists text. eexists. exists (Py.set "source" (JStr src) item).
  split; [reflexivity|].
  split; [exact (loads_dump _ _ D)|].
  split; [rewrite length_app; simpl; lia|].
  split; [reflexivity|].
  split; [apply last_last|].
  split; [apply lookup_set_same|].
  intros key N. now apply lookup_set_other.
Qed.

(** C10. The loop of a run starts with no item and the world of the run,
    the items of the response and the storage file the run leaves are those
    the loop ends with, and every iteration of the loop does one of three
    things: it adds no item and leaves the world as it is; or it adds an
    item whose [stored] is false, and no record is added to the file; or it
    adds an item whose [stored] is true and the file is rewritten with one
    more record, in which [stored] is false, [source] is the source of the
    request and every other field is the item's. *)
Theorem persisted_records_are_unstored (req : PipelineRequest) (env : Env)
  (w : World) :
  exists resp w',
    run_pipeline req env w = (Ok resp, w') /\
    let first := loop_state req env w 0 in
    let final :=
      loop_state req env w (List.length (fetched_comments env)) in
    st_items first = [] /\ st_world first = w /\
    items resp = st_items final /\
    storage w' = storage (st_world final) /\
    forall k,
      let before := loop_state req env w k in
      let after := loop_state req env w (S k) in
      (st_items after = st_items before /\ st_world after = st_world before)
      \/ (exists item,
            st_items after = (st_items before ++ [item])%list /\
            Py.lookup "stored" item = Some (JBool false) /\
            not_appended (st_world before) (st_world after))
      \/ (exists item record,
            st_items after = (st_items before ++ [item])%list /\
            Py.lookup "stored" item = Some (JBool true) /\
            appended (st_world before) (st_world after) record /\
            Py.lookup "stored" record = Some (JBool false) /\
            Py.lookup "source" record = Some (JStr (source req)) /\
            forall key,
              key <> "stored" -> key <> "source" ->
              Py.lookup key record = Py.lookup key item).
Proof.
  rewrite run_pipeline_eq. cbv zeta.
  eexists. eexists. split; [reflexivity|]. cbn [items].
  rewrite loop_state_end, send_notification_storage.
  split; [reflexivity|]. split; [reflexivity|].
  split; [reflexivity|]. split; [reflexivity|].
  intros k.
  destruct (loop_step req env w k)
    as [U|[(text & summary & sentiment & now & I & N)
          |(text & summary & sentiment & now & I & A)]].
  - now left.
  - right; left. cbv zeta in I. eexists.
    split; [exact I|]. split; [reflexivity|exact N].
  - right; right. cbv zeta in I, A. eexists. eexists.
    split; [exact I|]. split; [reflexivity|]. split; [exact A|].
    split; [reflexivity|]. split; [reflexivity|].
    intros key N1 N2.
    rewrite !lookup_set_other by assumption. reflexivity.
Qed.

End Claims.

(** ** The claims on the sample runs *)

(** Three comments with a body, the second call to the model failing: three
    items, the second one degraded, no error. *)
Example three_comments_one_failure :
  fst (run_pipeline Sample.request Sample.second_call_fails
         Sample.empty_world)
  = Ok {| items :=
            [[("original", JStr "Great post");
              ("analysis", JStr "Praise.");
              ("sentiment", JStr "positive");
              ("stored", JBool true);
              ("timestamp", JStr Sample.stamp)];
             [("original", JStr "Hm");
              ("analysis", JStr "AI failed: Connection error.");
              ("sentiment", JStr "neutral");
              ("stored", JBool true);
              ("timestamp", JStr Sample.stamp)];
             [("original", JStr "Bad");
              ("analysis", JStr "Blame.");
              ("sentiment", JStr "negative");
              ("stored", JBool true);
              ("timestamp", JStr Sample.stamp)]];
          notificationSent := true;
          processedAt := Sample.stamp;
          errors := [] |}.
Proof. reflexivity. Qed.

(** A storage file that cannot be rewritten: [False], and nothing changes. *)
Example store_on_read_only_file :
  store_result Sample.read_only Sample.item "web" Sample.stocked_world
  = (false, Sample.stocked_world).
Proof. reflexivity. Qed.

(** C2. On a run whose model answers with the sentiment "Mixed", the item of
    the response carries the sentiment "mixed", which is none of
    "positive", "negative" and "neutral". *)
Theorem sentiment_outside_enum :
  fst (run_pipeline Sample.request Sample.mixed_reply Sample.empty_world)
  = Ok {| items :=
            [[("original", JStr "Great post");
              ("analysis", JStr "Praise.");
              ("sentiment", JStr "mixed");
              ("stored", JBool true);
              ("timestamp", JStr Sample.stamp)]];
          notificationSent := true;
          processedAt := Sample.stamp;
          errors := [] |}
  /\ is_sentiment (JStr "mixed") = false.
Proof. split; reflexivity. Qed.

(** C3, against the claim as it is written: on an empty fetch the response
    says [notificationSent] is true. *)
Lemma empty_fetch_counterexample :
  fetch_comments Sample.empty_fetch = Ok (JArr []) /\
  fst (run_pipeline Sample.request Sample.empty_fetch Sample.empty_world)
  = Ok {| items := [];
          notificationSent := true;
          processedAt := Sample.stamp;
          errors := [] |}.
Proof. split; reflexivity. Qed.

(** [empty_fetch_response] on the sample run. *)
Lemma empty_fetch_response_witness :
  fetch_comments Sample.empty_fetch = Ok (JArr []) /\
  exists resp w',
    run_pipeline Sample.request Sample.empty_fetch Sample.empty_world
    = (Ok resp, w') /\
    items resp = [] /\ errors resp = [] /\ notificationSent resp = true /\
    w' = snd (send_notification Sample.empty_fetch (email Sample.request)
                false Sample.empty_world).
Proof.
  split; [reflexivity|].
  apply (empty_fetch_response Sample.request Sample.empty_fetch
           Sample.empty_world).
  reflexivity.
Defined.

(** [fetch_failure_is_reported] on a fetch that times out. *)
Lemma fetch_failure_is_reported_witness :
  fetch_comments Sample.failed_fetch = Raise "Fetch failed: timed out" /\
  exists resp w',
    run_pipeline Sample.request Sample.failed_fetch Sample.empty_world
    = (Ok resp, w') /\
    items resp = [] /\ errors resp = ["Fetch failed: timed out"] /\
    is_fetch_error "Fetch failed: timed out" = true.
Proof.
  split; [reflexivity|].
  apply (fetch_failure_is_reported Sample.request Sample.failed_fetch
           Sample.empty_world "Fetch failed: timed out").
  reflexivity.
Defined.

(** [degraded_analysis] on a model that cannot be reached. *)
Lemma degraded_analysis_witness :
  exists detail,
    analyze_with_ai Sample.failing_model 0 "Great post"
    = [("summary", JStr ("AI failed: " ++ detail));
       ("sentiment", JStr "neutral")] /\
    detail = Py.str_prefix 80 "Connection error." /\
    String.length detail <= 80.
Proof.
  apply (degraded_analysis Sample.failing_model 0 "Great post"
           "Connection error.").
  left. reflexivity.
Defined.

(** C8, against the claim as it is written: the item of the response has
    no [source]. *)
Lemma response_item_without_source :
  fst (run_pipeline Sample.request Sample.positive_reply Sample.empty_world)
  = Ok {| items :=
            [[("original", JStr "Great post");
              ("analysis", JStr "Praise.");
              ("sentiment", JStr "positive");
              ("stored", JBool true);
              ("timestamp", JStr Sample.stamp)]];
          notificationSent := true;
          processedAt := Sample.stamp;
          errors := [] |}
  /\ Py.lookup "source"
       [("original", JStr "Great post");
        ("analysis", JStr "Praise.");
        ("sentiment", JStr "positive");
        ("stored", JBool true);
        ("timestamp", JStr Sample.stamp)]
     = None.
Proof. split; reflexivity. Qed.

(** C6, against the claim as it is written: the storage file does not
    decode and cannot be opened for writing; [store_result] returns
    [False]. *)
Lemma corrupt_file_counterexample :
  storage Sample.corrupt_world = Some (Sample.Malformed "[{") /\
  @json_loads Sample.codec (Sample.Malformed "[{")
  = Raise "Expecting value: line 1 column 1 (char 0)" /\
  store_result Sample.read_only Sample.item "web" Sample.corrupt_world
  = (false, Sample.corrupt_world).
Proof. repeat split. Qed.

(** [corrupt_file_is_replaced] on a file that holds "[{". *)
Lemma corrupt_file_is_replaced_witness :
  exists record w',
    store_result Sample.no_fault Sample.item "web" Sample.corrupt_world
    = (true, w') /\
    @json_dump Sample.codec (JArr [JObj record])
    = Dumped
        (Sample.Encoded
           (JArr [JObj (Py.set "source" (JStr "web") Sample.item)])) /\
    storage w'
    = Some
        (Sample.Encoded
           (JArr [JObj (Py.set "source" (JStr "web") Sample.item)])) /\
    notification_log w' = notification_log Sample.corrupt_world /\
    stdout w' = stdout Sample.corrupt_world /\
    Py.lookup "source" record = Some (JStr "web") /\
    forall key, key <> "source" ->
                Py.lookup key record = Py.lookup key Sample.item.
Proof.
  apply (corrupt_file_is_replaced Sample.no_fault Sample.item "web"
           Sample.corrupt_world (Sample.Malformed "[{")
           (Sample.Encoded
              (JArr [JObj (Py.set "source" (JStr "web") Sample.item)]))
           "Expecting value: line 1 column 1 (char 0)");
    reflexivity.
Defined.

(** [store_then_reload] on a file that holds one record. *)
Lemma store_then_reload_witness :
  exists content reloaded record,
    storage (snd (store_result Sample.no_fault Sample.item "web"
                    Sample.stocked_world))
    = Some content /\
    json_loads content = Ok (JArr reloaded) /\
    List.length reloaded = 1 + 1 /\
    reloaded = ([Sample.old_record] ++ [JObj record])%list /\
    last reloaded JNull = JObj record /\
    Py.lookup "source" record = Some (JStr "web") /\
    forall key, key <> "source" ->
                Py.lookup key record = Py.lookup key Sample.item.
Proof.
  apply (store_then_reload (rt := sample_round_trip) Sample.no_fault
           Sample.item "web" Sample.stocked_world
           (snd (store_result Sample.no_fault Sample.item "web"
                   Sample.stocked_world))
           [Sample.old_record]);
    reflexivity.
Defined.

(** An item nested deeper than the encoder goes: [False], and the file that
    held one record is left cut. *)
Example store_of_a_deep_item :
  let r :=
    store_result Sample.no_fault Sample.deep_item "web"
      Sample.stocked_world in
  fst r = false /\ storage (snd r) = Some (Sample.Malformed "[").
Proof. vm_compute. split; reflexivity. Qed.

(** ** Further properties of the program *)

(** *** What one iteration does, read off the comment *)

Lemma str_prefix_short (n : nat) (s : string) :
  String.length s <= n -> Py.str_prefix n s = s.
Proof.
  unfold Py.str_prefix. revert s.
  induction n as [|n IH]; intros [|c s]; simpl; intros L;
    try reflexivity; try lia.
  rewrite IH; [reflexivity|lia].
Qed.

(** The messages of line 100 are never cut by [[:80]]. *)
Lemma comment_exception_short (c : json) (msg : string) :
  comment_exception c = Some msg ->
  comment_error msg = "Comment error: " ++ msg.
Proof.
  intros H. unfold comment_error. f_equal. apply str_prefix_short.
  destruct c as [| | | | | |d]; try (injection H as <-; simpl; lia).
  simpl in H.
  destruct (Py.lookup "body" d) as [[| | | | | |]|];
    try discriminate; injection H as <-; simpl; lia.
Qed.

Section Iteration.

Context {codec : JsonCodec}.

Lemma comment_body_raise (req : PipelineRequest) (env : Env) (i : nat)
  (c : json) (w : World) (msg : string) :
  comment_exception c = Some msg -> comment_body req env i c w = Raise msg.
Proof.
  unfold comment_body.
  destruct c as [| | | | | |d]; try (now intros [= <-]).
  simpl. destruct (Py.lookup "body" d) as [[| | | | | |]|];
    try discriminate; now intros [= <-].
Qed.

Lemma comment_body_text (req : PipelineRequest) (env : Env) (i : nat)
  (c : json) (w : World) (text : string) :
  comment_text c = Some text ->
  exists summary sentiment,
    analyze_with_ai env i text
    = [("summary", summary); ("sentiment", sentiment)] /\
    let item :=
      new_item text summary sentiment (utcnow_isoformat env (AtComment i)) in
    let r := store_result (storage_io env i) item (source req) w in
    comment_body req env i c w
    = Ok (Processed (Py.set "stored" (JBool (fst r)) item) (snd r)).
Proof.
  unfold comment_text, comment_body.
  destruct c as [| | | | | |d]; try discriminate. simpl.
  destruct (Py.lookup "body" d) as [[| | | |s| |]|]; try discriminate.
  destruct (String.eqb (Py.str_strip s) "") eqn:T; [discriminate|].
  intros [= <-]. simpl. rewrite T.
  destruct (analyze_with_ai_shape env i (Py.str_strip s))
    as (summary & sent & A).
  exists summary, (JStr sent). split; [exact A|].
  rewrite A. simpl.
  now destruct (store_result _ _ _ _).
Qed.

(** A comment is blank, or has a text, or cannot be read. *)
Lemma comment_kind (c : json) :
  (blank_body c = true /\ comment_text c = None
   /\ comment_exception c = None)
  \/ (exists text, comment_text c = Some text /\ comment_exception c = None)
  \/ (exists msg, comment_exception c = Some msg /\ comment_text c = None).
Proof.
  destruct c as [| | | | | |d]; try (right; right; simpl; eauto; fail).
  simpl. destruct (Py.lookup "body" d) as [[| | | |s| |]|];
    try (right; right; eauto; fail).
  - destruct (String.eqb (Py.str_strip s) ""); [left|right; left]; eauto.
  - left. auto.
Qed.

(** The items and the errors the loop adds depend on the comments alone, as
    far as their number, their order and their texts go. *)
Lemma for_each_trace (req : PipelineRequest) (env : Env) (cs : list json)
  (i : nat) (st : LoopState) :
  let st' := for_each req env i cs st in
  exists new,
    st_items st' = (st_items st ++ new)%list /\
    Forall2 (is_item_of env) (indexed_texts i cs) new /\
    st_errors st' = (st_errors st ++ failures cs)%list.
Proof.
  revert i st. induction cs as [|c cs IH]; intros i st; simpl.
  - exists []. now rewrite !app_nil_r.
  - destruct (IH (S i) (process_comment req env i c st)) as (new & I & F & E).
    unfold process_comment in I, E, F |- *.
    destruct (comment_kind c) as [(B & -> & ->)|[(text & T & X)|(msg & X & T)]].
    + rewrite (comment_body_blank req env i c (st_world st) B) in *.
      now exists new.
    + rewrite T, X.
      destruct (comment_body_text req env i c (st_world st) text T)
        as (summary & sent & A & C).
      cbv zeta in C. rewrite C in *. cbn [st_items st_errors] in I, E.
      exists (Py.set "stored"
                (JBool
                   (fst (store_result (storage_io env i)
                           (new_item text summary sent
                              (utcnow_isoformat env (AtComment i)))
                           (source req) (st_world st))))
                (new_item text summary sent
                   (utcnow_isoformat env (AtComment i))) :: new).
      rewrite <- app_assoc in I. split; [exact I|]. split; [|exact E].
      constructor; [|exact F].
      exists summary, sent. eexists. split; [exact A|reflexivity].
    + rewrite T, X.
      rewrite (comment_body_raise req env i c (st_world st) msg X) in *.
      cbn [st_items st_errors] in I, E.
      exists new. split; [exact I|]. split; [exact F|].
      rewrite E, <- app_assoc. simpl.
      now rewrite (comment_exception_short c msg X).
Qed.

Lemma indexed_texts_failures_length (cs : list json) (i : nat) :
  List.length (indexed_texts i cs) + List.length (failures cs)
  <= List.length cs.
Proof.
  revert i. induction cs as [|c cs IH]; intros i; simpl; [lia|].
  specialize (IH (S i)).
  destruct (comment_kind c) as [(_ & -> & ->)|[(t & -> & ->)|(m & -> & ->)]];
    simpl; lia.
Qed.

Lemma failures_are_comment_errors (cs : list json) :
  Forall (fun e => is_comment_error e = true) (failures cs).
Proof.
  induction cs as [|c cs IH]; simpl; [constructor|].
  destruct (comment_exception c) as [msg|]; [|exact IH].
  constructor; [exact (prefix_append "Comment error: " msg)|exact IH].
Qed.

Lemma chars_length (s : string) :
  List.length (Py.chars s) = String.length s.
Proof. induction s as [|c s IH]; simpl; [reflexivity|now rewrite IH]. Qed.

Lemma fetched_comments_length (env : Env) :
  List.length (fetched_comments env) <= 3.
Proof.
  unfold fetched_comments, fetch_or_empty.
  destruct (fetch_comments env) as [c|m] eqn:E; [|simpl; lia].
  destruct (fetch_comments_ok _ _ E) as [(xs & -> & L)|(s & -> & L)];
    simpl; [exact L|now rewrite chars_length].
Qed.

(** What the fetch leaves for the loop: comments and no error, or an error
    and no comment. *)
Lemma fetch_or_empty_cases (env : Env) :
  snd (fetch_or_empty env) = []
  \/ (fetched_comments env = []
      /\ exists m, snd (fetch_or_empty env) = ["Fetch failed: " ++ m]).
Proof.
  unfold fetched_comments, fetch_or_empty.
  destruct (fetch_comments env) as [c|msg] eqn:E; [now left|right].
  destruct (fetch_comments_raise _ _ E) as [m ->]. simpl. eauto.
Qed.

End Iteration.

(** *** The response, read off the fetched comments *)

Section Responses.

Context {codec : JsonCodec}.

(** The loop's result, in the words of [for_each_trace]. *)
Lemma run_pipeline_trace (req : PipelineRequest) (env : Env) (w : World) :
  exists resp w',
    run_pipeline req env w = (Ok resp, w') /\
    Forall2 (is_item_of env) (indexed_texts 0 (fetched_comments env))
      (items resp) /\
    errors resp
    = (snd (fetch_or_empty env) ++ failures (fetched_comments env))%list.
Proof.
  rewrite run_pipeline_eq. cbv zeta.
  eexists. eexists. split; [reflexivity|]. cbn [items errors].
  destruct (for_each_trace req env (fetched_comments env) 0
              {| st_items := [];
                 st_errors := snd (fetch_or_empty env);
                 st_world := w |}) as (new & I & F & E).
  cbn [st_items st_errors] in I, E. simpl in I. rewrite I, E. now split.
Qed.

(** X1. At most three comments are fetched, and a response never holds more
    than three items and errors together. *)
Theorem at_most_three_outcomes (req : PipelineRequest) (env : Env)
  (w : World) :
  exists resp w',
    run_pipeline req env w = (Ok resp, w') /\
    List.length (fetched_comments env) <= 3 /\
    List.length (items resp) + List.length (errors resp) <= 3.
Proof.
  destruct (run_pipeline_trace req env w) as (resp & w' & R & F & E).
  exists resp, w'. split; [exact R|].
  pose proof (fetched_comments_length env) as L. split; [exact L|].
  rewrite E, length_app, <- (Forall2_length F).
  pose proof (indexed_texts_failures_length (fetched_comments env) 0) as B.
  destruct (fetch_or_empty_cases env) as [->|(N & m & ->)].
  - simpl. lia.
  - rewrite N. simpl. lia.
Qed.

(** X2. When the source answers with JSON that is neither a list nor a
    string (an object, a number, a boolean, null), the run reports a failed
    fetch: no item, and one error that starts with "Fetch failed: ". *)
Theorem non_sequence_fetch_fails (req : PipelineRequest) (env : Env)
  (w : World) (data : json) :
  http_get env = HttpJson data ->
  not_sequence data = true ->
  exists resp w' m,
    run_pipeline req env w = (Ok resp, w') /\
    items resp = [] /\ errors resp = ["Fetch failed: " ++ m].
Proof.
  intros H N.
  assert (exists m, fetch_comments env = Raise ("Fetch failed: " ++ m))
    as [m F].
  { unfold fetch_comments. rewrite H.
    destruct data; try discriminate; simpl; eauto. }
  destruct (run_pipeline_trace req env w) as (resp & w' & R & I & E).
  exists resp, w', m. split; [exact R|].
  unfold fetched_comments, fetch_or_empty in I, E. rewrite F in I, E.
  simpl in I, E. inversion I. now split.
Qed.

(** X3. The items of the response are, in order, one for each fetched
    comment that is a dict with a string body not blank: its [original] is
    the trimmed body, its [analysis] and [sentiment] are what
    [analyze_with_ai] returned for that text, and its timestamp is the clock
    read for that comment. No failure of the model or of the store drops an
    item. *)
Theorem items_follow_comments (req : PipelineRequest) (env : Env)
  (w : World) :
  exists resp w',
    run_pipeline req env w = (Ok resp, w') /\
    Forall2 (is_item_of env) (indexed_texts 0 (fetched_comments env))
      (items resp).
Proof.
  destruct (run_pipeline_trace req env w) as (resp & w' & R & F & _).
  now exists resp, w'.
Qed.

(** X4. The errors of the response are the error of the fetch, if it
    failed, and then, in order, one entry for each fetched comment that is
    not a dict or whose body is not a string, made of "Comment error: " and
    the whole message of the exception. The model and the store never add an
    entry. *)
Theorem errors_follow_comments (req : PipelineRequest) (env : Env)
  (w : World) :
  exists resp w',
    run_pipeline req env w = (Ok resp, w') /\
    errors resp
    = (snd (fetch_or_empty env) ++ failures (fetched_comments env))%list.
Proof.
  destruct (run_pipeline_trace req env w) as (resp & w' & R & _ & E).
  now exists resp, w'.
Qed.

(** X5. A response never has both items and a fetch error: either all its
    errors are per-comment errors, or it has no item and its only error is
    the fetch error. *)
Theorem fetch_error_or_items (req : PipelineRequest) (env : Env)
  (w : World) :
  exists resp w',
    run_pipeline req env w = (Ok resp, w') /\
    (Forall (fun e => is_comment_error e = true) (errors resp)
     \/ (items resp = []
         /\ exists m, errors resp = ["Fetch failed: " ++ m])).
Proof.
  destruct (run_pipeline_trace req env w) as (resp & w' & R & F & E).
  exists resp, w'. split; [exact R|].
  destruct (fetch_or_empty_cases env) as [N|(N & m & M)].
  - left. rewrite E, N. apply failures_are_comment_errors.
  - right. rewrite N in F, E. inversion F. rewrite E, M. simpl. eauto.
Qed.

End Responses.

(** *** [analyze_with_ai] on what the model returns *)

Lemma lower_char_idempotent (c : ascii) :
  Py.lower_char (Py.lower_char c) = Py.lower_char c.
Proof.
  destruct c as [[] [] [] [] [] [] [] []]; reflexivity.
Qed.

Lemma str_lower_idempotent (s : string) :
  Py.str_lower (Py.str_lower s) = Py.str_lower s.
Proof.
  induction s as [|c s IH]; simpl; [reflexivity|].
  now rewrite lower_char_idempotent, IH.
Qed.

Lemma Forall2_right {A B : Type} (R : A -> B -> Prop) (Q : B -> Prop)
  (l : list A) (l' : list B) :
  (forall x y, R x y -> Q y) -> Forall2 R l l' -> Forall Q l'.
Proof.
  intros H F. induction F as [|x y l l' r F IH]; constructor; eauto.
Qed.

Section Analysis.

Context {codec : JsonCodec}.

Lemma analyze_sentiment_lower (env : Env) (i : nat) (text : string) :
  exists summary s,
    analyze_with_ai env i text = [("summary", summary); ("sentiment", JStr s)]
    /\ Py.str_lower s = s.
Proof.
  unfold analyze_with_ai, try_except.
  destruct (analyze_body env i text) as [d|msg] eqn:E.
  - unfold analyze_body, bind in E.
    destruct (create_completion _ _ _); [|discriminate].
    destruct (json_loads _) as [result|]; [|discriminate].
    destruct (Py.get result "summary" _) as [summary|]; [|discriminate].
    destruct (Py.get result "sentiment" _) as [raw|]; [|discriminate].
    destruct raw; try discriminate. simpl in E. injection E as <-.
    eexists. eexists. split; [reflexivity|apply str_lower_idempotent].
  - unfold degraded. eexists. eexists. split; reflexivity.
Qed.

(** X6. When the model returns a JSON object, a missing [summary] becomes
    "No summary available" and a missing [sentiment] becomes "neutral"; a
    summary that is present is passed on as it is, of whatever type, and a
    sentiment that is a string is passed on in lower case. *)
Theorem reply_fields_and_defaults (env : Env) (i : nat) (text : string)
  (content : document) (d : dict) (raw : string) :
  chat_completion env i (prompt text) = CompletionContent content ->
  json_loads content = Ok (JObj d) ->
  get_or "sentiment" (JStr "neutral") d = JStr raw ->
  analyze_with_ai env i text
  = [("summary", get_or "summary" (JStr "No summary available") d);
     ("sentiment", JStr (Py.str_lower raw))].
Proof.
  intros C L S.
  unfold analyze_with_ai, analyze_body, create_completion.
  rewrite C. simpl. rewrite L. simpl.
  unfold get_or in S. rewrite S. reflexivity.
Qed.

(** X7. When the model returns JSON that is not an object, the analysis is
    the degraded one: sentiment "neutral" and a summary that names the
    type. *)
Theorem non_object_reply_is_degraded (env : Env) (i : nat) (text : string)
  (content : document) (result : json) :
  chat_completion env i (prompt text) = CompletionContent content ->
  json_loads content = Ok result ->
  is_dict result = false ->
  analyze_with_ai env i text
  = [("summary",
      JStr ("AI failed: '" ++ Py.type_name result
            ++ "' object has no attribute 'get'"));
     ("sentiment", JStr "neutral")].
Proof.
  intros C L D.
  unfold analyze_with_ai, analyze_body, create_completion.
  rewrite C. simpl. rewrite L. simpl.
  destruct result; try discriminate; reflexivity.
Qed.

(** X8. When the model returns an object whose [sentiment] is not a string
    (a number, null, a list), the analysis is the degraded one, and the
    summary the model gave is lost. *)
Theorem non_string_sentiment_is_degraded (env : Env) (i : nat)
  (text : string) (content : document) (d : dict) (v : json) :
  chat_completion env i (prompt text) = CompletionContent content ->
  json_loads content = Ok (JObj d) ->
  Py.lookup "sentiment" d = Some v ->
  is_str v = false ->
  analyze_with_ai env i text
  = [("summary",
      JStr ("AI failed: '" ++ Py.type_name v
            ++ "' object has no attribute 'lower'"));
     ("sentiment", JStr "neutral")].
Proof.
  intros C L S N.
  unfold analyze_with_ai, analyze_body, create_completion.
  rewrite C. simpl. rewrite L. simpl. rewrite S.
  destruct v; try discriminate; reflexivity.
Qed.

(** X9. The sentiment of every item of a response is a string that lower
    casing leaves unchanged: upper-case letters of the model never reach the
    response. *)
Theorem sentiment_is_lower_case (req : PipelineRequest) (env : Env)
  (w : World) :
  exists resp w',
    run_pipeline req env w = (Ok resp, w') /\
    Forall (fun item =>
              exists s,
                Py.lookup "sentiment" item = Some (JStr s) /\
                Py.str_lower s = s)
           (items resp).
Proof.
  destruct (run_pipeline_trace req env w) as (resp & w' & R & F & _).
  exists resp, w'. split; [exact R|].
  refine (Forall2_right _ _ _ _ _ F). intros it item H.
  destruct H as (summary & sentiment & stored & A & ->).
  destruct (analyze_sentiment_lower env (fst it) (snd it))
    as (summary' & s & A' & Low).
  rewrite A' in A. injection A as _ <-.
  exists s. split; [reflexivity|exact Low].
Qed.

End Analysis.

(** *** Trimming *)

Lemma rstrip_idempotent (s : string) : Py.rstrip (Py.rstrip s) = Py.rstrip s.
Proof.
  induction s as [|c s IH]; simpl; [reflexivity|].
  destruct (Py.rstrip s) as [|a r] eqn:R.
  - destruct (Py.isspace c) eqn:C; simpl; [reflexivity|now rewrite C].
  - change (Py.rstrip (String c (String a r)))
      with (match Py.rstrip (String a r) with
            | EmptyString =>
                if Py.isspace c then EmptyString else String c EmptyString
            | r' => String c r'
            end).
    now rewrite IH.
Qed.

Lemma rstrip_head (c : ascii) (s : string) :
  Py.isspace c = false ->
  Py.rstrip (String c s) = String c (Py.rstrip s).
Proof.
  intros C. simpl. destruct (Py.rstrip s); [now rewrite C|reflexivity].
Qed.

Lemma lstrip_head (s : string) :
  Py.lstrip s = EmptyString
  \/ exists c r, Py.lstrip s = String c r /\ Py.isspace c = false.
Proof.
  induction s as [|c s IH]; simpl; [now left|].
  destruct (Py.isspace c) eqn:C; [exact IH|right; eauto].
Qed.

(** Trimming what is trimmed changes nothing. *)
Lemma str_strip_idempotent (s : string) :
  Py.str_strip (Py.str_strip s) = Py.str_strip s.
Proof.
  unfold Py.str_strip.
  destruct (lstrip_head s) as [->|(c & r & -> & C)]; [reflexivity|].
  rewrite (rstrip_head c r C). simpl Py.lstrip. rewrite C.
  rewrite (rstrip_head c _ C). now rewrite rstrip_idempotent.
Qed.

Lemma filter_all {A : Type} (f : A -> bool) (l : list A) :
  Forall (fun x => f x = true) l -> filter f l = l.
Proof.
  induction 1 as [|x l H F IH]; simpl; [reflexivity|].
  now rewrite H, IH.
Qed.

Lemma Forall2_right_of {A B : Type} (P : A -> Prop) (R : A -> B -> Prop)
  (Q : B -> Prop) (l : list A) (l' : list B) :
  (forall x y, P x -> R x y -> Q y) ->
  Forall P l -> Forall2 R l l' -> Forall Q l'.
Proof.
  intros H FP F. induction F as [|x y l l' r F IH]; constructor.
  - inversion FP; subst. eauto.
  - inversion FP; subst. auto.
Qed.

(** *** [store_result], alone and in the loop *)

Section Storing.

Context {codec : JsonCodec}.

(** X10. [store_result] returns [True] exactly when the storage file is
    absent or can be opened for reading, what it decodes to is a list (an
    absent or undecodable file counting as the empty list), the file can be
    opened for writing, and [json.dump] writes that list followed by the new
    record without raising. *)
Theorem store_succeeds_iff (io : file_io) (item : dict) (src : string)
  (w : World) :
  fst (store_result io item src w) = true
  <-> readable io w /\ open_write io = IoOk
      /\ exists prior text,
           collection w = Some prior /\
           json_dump
             (JArr (prior ++ [JObj (Py.set "source" (JStr src) item)]))
           = Dumped text.
Proof.
  split.
  - destruct (store_result io item src w) as [b w'] eqn:S. simpl.
    intros ->.
    destruct (store_result_true _ _ _ _ _ S)
      as (prior & text & R & W & C & D & _).
    eauto 6.
  - intros (R & W & prior & text & C & D).
    now rewrite (store_result_write io item src w prior R W C), D.
Qed.

Lemma store_result_none (io : file_io) (item : dict) (src : string)
  (w : World) :
  collection w = None -> store_result io item src w = (false, w).
Proof.
  intros C.
  destruct (store_result_cases io item src w) as [F|(prior & _ & _ & X)];
    [exact F|congruence].
Qed.

(** What every call of [store_result] in the loop keeps of the world ([P])
    and gives the items ([Q]) holds at the end of the loop. *)
Lemma for_each_store_inv (P : World -> Prop) (Q : dict -> Prop)
  (req : PipelineRequest) (env : Env) :
  (forall i text summary sentiment w,
      P w ->
      let item :=
        new_item text summary sentiment
          (utcnow_isoformat env (AtComment i)) in
      let r := store_result (storage_io env i) item (source req) w in
      P (snd r) /\ Q (Py.set "stored" (JBool (fst r)) item)) ->
  forall cs i st,
    P (st_world st) -> Forall Q (st_items st) ->
    let st' := for_each req env i cs st in
    P (st_world st') /\ Forall Q (st_items st').
Proof.
  intros step cs. induction cs as [|c cs IH]; intros i st HP HQ; simpl.
  - now split.
  - apply IH; unfold process_comment;
      destruct (comment_kind c) as [(B & _)|[(text & T & _)|(msg & X & _)]].
    + now rewrite (comment_body_blank req env i c (st_world st) B).
    + destruct (comment_body_text req env i c (st_world st) text T)
        as (summary & sent & _ & C).
      cbv zeta in C. rewrite C. simpl.
      exact (proj1 (step i text summary sent (st_world st) HP)).
    + now rewrite (comment_body_raise req env i c (st_world st) msg X).
    + now rewrite (comment_body_blank req env i c (st_world st) B).
    + destruct (comment_body_text req env i c (st_world st) text T)
        as (summary & sent & _ & C).
      cbv zeta in C. rewrite C. simpl.
      apply Forall_app. split; [exact HQ|].
      constructor; [|constructor].
      exact (proj2 (step i text summary sent (st_world st) HP)).
    + now rewrite (comment_body_raise req env i c (st_world st) msg X).
Qed.

(** X11. When the storage file decodes to JSON that is not a list (an
    object, say), a run never rewrites it: every item of the response has
    [stored] false and the file is left as it was. *)
Theorem non_list_file_is_never_rewritten (req : PipelineRequest)
  (env : Env) (w : World) :
  collection w = None ->
  exists resp w',
    run_pipeline req env w = (Ok resp, w') /\
    Forall (fun item => Py.lookup "stored" item = Some (JBool false))
      (items resp) /\
    storage w' = storage w.
Proof.
  intros C. rewrite run_pipeline_eq. cbv zeta.
  eexists. eexists. split; [reflexivity|]. cbn [items].
  rewrite send_notification_storage.
  destruct (for_each_store_inv (fun w1 => w1 = w)
              (fun item => Py.lookup "stored" item = Some (JBool false))
              req env) with
    (cs := fetched_comments env) (i := 0)
    (st := {| st_items := [];
              st_errors := snd (fetch_or_empty env);
              st_world := w |}) as [W I]; try (simpl; auto; fail).
  - intros i text summary sentiment w1 ->. cbv zeta.
    rewrite (store_result_none _ _ _ _ C). now split.
  - split; [exact I|now rewrite W].
Qed.

(** X12. In the record a successful store appends, [source] is the source
    given, whether the item had a [source] or not, and every other field is
    the item's. *)
Theorem record_keeps_the_item (io : file_io) (item : dict) (src : string)
  (w w' : World) :
  store_result io item src w = (true, w') ->
  exists prior record text,
    collection w = Some prior /\
    json_dump (JArr (prior ++ [JObj record])) = Dumped text /\
    storage w' = Some text /\
    Py.lookup "source" record = Some (JStr src) /\
    forall key, key <> "source" ->
                Py.lookup key record = Py.lookup key item.
Proof.
  intros S.
  destruct (store_result_true _ _ _ _ _ S)
    as (xs & text & _ & _ & C & D & ->).
  exists xs, (Py.set "source" (JStr src) item), text.
  split; [exact C|]. split; [exact D|]. split; [reflexivity|].
  split; [apply lookup_set_same|].
  intros key N. now apply lookup_set_other.
Qed.

(** X13. Two successful stores in a row leave the prior collection followed
    by the two records, in the order of the calls. *)
Theorem two_stores_compose {rt : JsonRoundTrip codec} (io1 io2 : file_io)
  (a b : dict) (src1 src2 : string) (w w1 w2 : World)
  (prior : list json) :
  collection w = Some prior ->
  store_result io1 a src1 w = (true, w1) ->
  store_result io2 b src2 w1 = (true, w2) ->
  collection w2
  = Some (prior ++ [JObj (Py.set "source" (JStr src1) a);
                    JObj (Py.set "source" (JStr src2) b)])%list.
Proof.
  intros C S1 S2.
  destruct (store_result_true _ _ _ _ _ S1)
    as (xs1 & t1 & _ & _ & X1 & D1 & ->).
  destruct (store_result_true _ _ _ _ _ S2)
    as (xs2 & t2 & _ & _ & X2 & D2 & ->).
  rewrite (collection_with_storage _ _ _ D1) in X2. injection X2 as <-.
  rewrite C in X1. injection X1 as <-.
  rewrite (collection_with_storage _ _ _ D2), <- app_assoc. reflexivity.
Qed.

(** X14. A run prints one line and no more, the notification, whose success
    flag is [True] exactly when the response has an item; it appends the
    same text to the log when the log can be opened and leaves the log alone
    when it cannot; in both cases [notificationSent] is true. *)
Theorem one_notification_per_run (req : PipelineRequest) (env : Env)
  (w : World) :
  exists resp w',
    run_pipeline req env w = (Ok resp, w') /\
    notificationSent resp = true /\
    let msg :=
      notification env (email req)
        (0 <? List.length (items resp))%nat in
    let line := msg ++ Py.nl in
    stdout w' = (stdout w ++ [line])%list /\
    notification_log w'
    = match log_io env with
      | IoOk => (notification_log w ++ [msg])%list
      | IoError _ => notification_log w
      end.
Proof.
  rewrite run_pipeline_eq. cbv zeta.
  eexists. eexists. split; [reflexivity|]. split; [reflexivity|].
  cbn [items].
  destruct (for_each_store_inv
              (fun w1 => stdout w1 = stdout w
                         /\ notification_log w1 = notification_log w)
              (fun _ => True) req env) with
    (cs := fetched_comments env) (i := 0)
    (st := {| st_items := [];
              st_errors := snd (fetch_or_empty env);
              st_world := w |}) as [[O L] _]; try (simpl; auto; fail).
  - intros i text summary sentiment w1 [O L]. cbv zeta.
    split; [|exact I].
    destruct (store_result _ _ _ w1) as [[|] w2] eqn:S; simpl.
    + destruct (store_result_true _ _ _ _ _ S)
        as (xs & t & _ & _ & _ & _ & ->).
      now split.
    + destruct (store_result_false _ _ _ _ _ S)
        as [->|(data & m & cut & _ & ->)]; now split.
  - unfold send_notification. simpl. rewrite O, L. split; [reflexivity|].
    now destruct (log_io env).
Qed.

Lemma for_each_healthy {rt : JsonRoundTrip codec} (req : PipelineRequest)
  (env : Env) :
  (forall i, open_read (storage_io env i) = IoOk
             /\ open_write (storage_io env i) = IoOk) ->
  forall cs i st base,
    collection (st_world st) = Some base ->
    let st' := for_each req env i cs st in
    exists new,
      st_items st' = (st_items st ++ new)%list /\
      ((Forall (fun item => is_stored item = true) new /\
        collection (st_world st')
        = Some (base ++ map (record_of (source req)) new)%list)
       \/ exists n msg cut,
            json_dump
              (JArr (base ++ map (record_of (source req)) (firstn n new)))
            = DumpRaise msg cut).
Proof.
  intros IO cs. induction cs as [|c cs IH]; intros i st base C; simpl.
  - exists []. rewrite !app_nil_r. split; [reflexivity|]. left.
    split; [constructor|exact C].
  - destruct (process_comment_store req env i c st)
      as [[I W]|(text & summary & sentiment & I & W)].
    + rewrite <- W in C.
      destruct (IH (S i) _ base C) as (new & E & H).
      exists new. rewrite E, I. now split.
    + cbv zeta in I, W.
      destruct (IO i) as [R O].
      rewrite (store_result_write _ _ _ _ base (or_intror R) O C) in I, W.
      destruct (json_dump _) as [text'|msg cut] eqn:D; cbn [fst snd] in I, W.
      * pose proof (collection_with_storage (st_world st) _ _ D) as C'.
        rewrite <- W in C'.
        destruct (IH (S i) _ _ C') as (new & E & H).
        rewrite I in E. rewrite <- app_assoc in E.
        eexists. split; [exact E|].
        destruct H as [[F K]|(n & m & cut & K)].
        -- left. split; [constructor; [reflexivity|exact F]|].
           rewrite K, <- app_assoc. reflexivity.
        -- right. exists (S n), m, cut.
           rewrite <- app_assoc in K. exact K.
      * destruct (for_each_trace req env cs (S i)
                    (process_comment req env i c st)) as (new & E & _).
        rewrite I in E. rewrite <- app_assoc in E.
        eexists. split; [exact E|].
        right. exists 1, msg, cut. exact D.
Qed.

(** X15. When the storage file holds a list (or is absent or undecodable)
    and can be opened at every store, then, unless [json.dump] raises on the
    prior collection followed by the records of the first items of the
    response, every item of the response has [stored] true and the file
    ends as the prior collection followed by one record for each item, in
    order. *)
Theorem healthy_run_stores_every_item {rt : JsonRoundTrip codec}
  (req : PipelineRequest) (env : Env) (w : World) (prior : list json) :
  collection w = Some prior ->
  (forall i, open_read (storage_io env i) = IoOk
             /\ open_write (storage_io env i) = IoOk) ->
  exists resp w',
    run_pipeline req env w = (Ok resp, w') /\
    ((Forall (fun item => is_stored item = true) (items resp) /\
      collection w'
      = Some (prior ++ map (record_of (source req)) (items resp))%list)
     \/ exists n msg cut,
          json_dump
            (JArr (prior
                   ++ map (record_of (source req)) (firstn n (items resp))))
          = DumpRaise msg cut).
Proof.
  intros C IO. rewrite run_pipeline_eq. cbv zeta.
  eexists. eexists. split; [reflexivity|]. cbn [items].
  destruct (for_each_healthy req env IO (fetched_comments env) 0
              {| st_items := [];
                 st_errors := snd (fetch_or_empty env);
                 st_world := w |} prior C) as (new & E & H).
  cbn [st_items] in E. simpl in E. rewrite E.
  destruct H as [[F K]|H]; [left|right; exact H].
  split; [exact F|].
  unfold collection at 1. rewrite send_notification_storage. exact K.
Qed.

Lemma indexed_texts_trimmed (cs : list json) (i : nat) :
  Forall (fun it => Py.str_strip (snd it) = snd it) (indexed_texts i cs).
Proof.
  revert i. induction cs as [|c cs IH]; intros i; simpl; [constructor|].
  destruct (comment_text c) as [text|] eqn:T; [|apply IH].
  constructor; [|apply IH]. simpl.
  unfold comment_text in T.
  destruct c as [| | | | | |d]; try discriminate.
  destruct (Py.lookup "body" d) as [[| | | |s| |]|]; try discriminate.
  destruct (String.eqb (Py.str_strip s) ""); [discriminate|].
  injection T as <-. apply str_strip_idempotent.
Qed.

(** X16. The [original] of every item of a response is trimmed: trimming it
    again changes nothing, so it neither starts nor ends with white
    space. *)
Theorem original_is_trimmed (req : PipelineRequest) (env : Env)
  (w : World) :
  exists resp w',
    run_pipeline req env w = (Ok resp, w') /\
    Forall (fun item =>
              exists text,
                Py.lookup "original" item = Some (JStr text) /\
                Py.str_strip text = text)
           (items resp).
Proof.
  destruct (run_pipeline_trace req env w) as (resp & w' & R & F & _).
  exists resp, w'. split; [exact R|].
  refine (Forall2_right_of _ _ _ _ _ _
            (indexed_texts_trimmed (fetched_comments env) 0) F).
  intros it item T (summary & sentiment & stored & _ & ->).
  exists (snd it). split; [reflexivity|exact T].
Qed.

End Storing.

(** *** The further properties on the sample runs *)

(** [non_sequence_fetch_fails] on a source that answers with an object. *)
Lemma non_sequence_fetch_fails_witness :
  exists resp w' m,
    run_pipeline Sample.request Sample.object_fetch Sample.empty_world
    = (Ok resp, w') /\
    items resp = [] /\ errors resp = ["Fetch failed: " ++ m].
Proof.
  apply (non_sequence_fetch_fails Sample.request Sample.object_fetch
           Sample.empty_world (JObj [("error", JStr "rate limited")]));
    reflexivity.
Defined.

(** [reply_fields_and_defaults] on a reply that has neither key. *)
Lemma reply_fields_and_defaults_witness :
  analyze_with_ai Sample.empty_reply 0 "Great post"
  = [("summary", JStr "No summary available");
     ("sentiment", JStr "neutral")].
Proof.
  apply (reply_fields_and_defaults Sample.empty_reply 0 "Great post"
           (Sample.Encoded (JObj [])) [] "neutral");
    reflexivity.
Defined.

(** [non_object_reply_is_degraded] on a reply that is a list. *)
Lemma non_object_reply_is_degraded_witness :
  analyze_with_ai Sample.list_reply 0 "Great post"
  = [("summary", JStr "AI failed: 'list' object has no attribute 'get'");
     ("sentiment", JStr "neutral")].
Proof.
  apply (non_object_reply_is_degraded Sample.list_reply 0 "Great post"
           (Sample.Encoded (JArr [])) (JArr []));
    reflexivity.
Defined.

(** [non_string_sentiment_is_degraded] on a sentiment that is a number. *)
Lemma non_string_sentiment_is_degraded_witness :
  analyze_with_ai Sample.numeric_sentiment 0 "Great post"
  = [("summary", JStr "AI failed: 'int' object has no attribute 'lower'");
     ("sentiment", JStr "neutral")].
Proof.
  apply (non_string_sentiment_is_degraded Sample.numeric_sentiment 0
           "Great post"
           (Sample.Encoded
              (JObj [("summary", JStr "Praise."); ("sentiment", JInt 1)]))
           [("summary", JStr "Praise."); ("sentiment", JInt 1)] (JInt 1));
    reflexivity.
Defined.

(** [non_list_file_is_never_rewritten] on a file that holds an object. *)
Lemma non_list_file_is_never_rewritten_witness :
  exists resp w',
    run_pipeline Sample.request Sample.positive_reply Sample.object_world
    = (Ok resp, w') /\
    Forall (fun item => Py.lookup "stored" item = Some (JBool false))
      (items resp) /\
    storage w' = storage Sample.object_world.
Proof.
  apply (non_list_file_is_never_rewritten Sample.request
           Sample.positive_reply Sample.object_world).
  reflexivity.
Defined.

(** [record_keeps_the_item] on a store into the file of one record. *)
Lemma record_keeps_the_item_witness :
  exists prior record text,
    collection Sample.stocked_world = Some prior /\
    @json_dump Sample.codec (JArr (prior ++ [JObj record])) = Dumped text /\
    storage (snd (store_result Sample.no_fault Sample.item "web"
                    Sample.stocked_world))
    = Some text /\
    Py.lookup "source" record = Some (JStr "web") /\
    forall key, key <> "source" ->
                Py.lookup key record = Py.lookup key Sample.item.
Proof.
  apply (record_keeps_the_item Sample.no_fault Sample.item "web"
           Sample.stocked_world).
  reflexivity.
Defined.

(** [two_stores_compose] on two stores into the file of one record. *)
Lemma two_stores_compose_witness :
  collection
    (snd (store_result Sample.no_fault Sample.other_item "mail"
            (snd (store_result Sample.no_fault Sample.item "web"
                    Sample.stocked_world))))
  = Some ([Sample.old_record]
          ++ [JObj (Py.set "source" (JStr "web") Sample.item);
              JObj (Py.set "source" (JStr "mail") Sample.other_item)])%list.
Proof.
  apply (two_stores_compose (rt := sample_round_trip)
           Sample.no_fault Sample.no_fault Sample.item Sample.other_item
           "web" "mail" Sample.stocked_world
           (snd (store_result Sample.no_fault Sample.item "web"
                   Sample.stocked_world)));
    reflexivity.
Defined.

(** [healthy_run_stores_every_item] on the run of three comments. *)
Lemma healthy_run_stores_every_item_witness :
  exists resp w',
    run_pipeline Sample.request Sample.second_call_fails Sample.stocked_world
    = (Ok resp, w') /\
    ((Forall (fun item => is_stored item = true) (items resp) /\
      collection w'
      = Some ([Sample.old_record]
              ++ map (record_of (source Sample.request)) (items resp))%list)
     \/ exists n msg cut,
          @json_dump Sample.codec
            (JArr ([Sample.old_record]
                   ++ map (record_of (source Sample.request))
                        (firstn n (items resp))))
          = DumpRaise msg cut).
Proof.
  apply (healthy_run_stores_every_item (rt := sample_round_trip)
           Sample.request Sample.second_call_fails Sample.stocked_world
           [Sample.old_record]).
  - reflexivity.
  - intros i. split; reflexivity.
Defined.
